(** * StreamBtcCePe: the weekly Bitcoin options dashboard

    A shallow embedding of [CorrectionStreamlitBtcOption.py]: the expiry
    filter, the row classifier, the construction of the annotated table and
    the top-level dashboard flow, followed by the properties proved of them.

    Conventions.
    - A Python number is an [int] (unbounded, [Z]) or a [float] (IEEE 754
      binary64, as the inductive [spec_float] of the standard library, which
      has signed zeros, infinities and NaN).
    - A Python [dict] read by key is a [gmap string _]; [d.get(k, None)] is
      the lookup [d !! k].
    - The network and the clock are inputs of the model: what an HTTP call
      yields is a value of [http_outcome], the instant read by
      [datetime.utcnow()] is a parameter [now].
    - What the script does to the outside (its requests and what it shows on
      the page) is a list of [event]s, in order; a computation that raises
      keeps the events made so far.
    - An instant is a number of microseconds since the epoch. The conversion
      of a timestamp follows CPython ([int / int], [utcfromtimestamp] with
      its rounding and its exceptions); the frame follows the dtype
      inference of [pd.DataFrame]. *)

From Stdlib Require Import ZArith Floats.SpecFloat.
From stdpp Require Import base option list strings pretty gmap.

Local Open Scope string_scope.
Local Open Scope list_scope.
Local Open Scope Z_scope.

(** ** Python values *)

Inductive number :=
  | PyInt (z : Z)
  | PyFloat (f : spec_float).

(** A table cell, or the value of [dict.get(key, None)]: a number or [None]. *)
Abbreviation cell := (option number).

(** The literal [0] seen as a float, for comparisons against a float. *)
Definition float_zero : spec_float := S754_zero false.

(** [x < 0] and [x > 0] for a number [x] and the int literal [0]. *)
Definition lt_0 (x : number) : bool :=
  match x with
  | PyInt z => z <? 0
  | PyFloat f => SFltb f float_zero
  end.

Definition gt_0 (x : number) : bool :=
  match x with
  | PyInt z => 0 <? z
  | PyFloat f => SFltb float_zero f
  end.

(** [pd.notnull]: false on [None] and on NaN. *)
Definition notnull (c : cell) : bool :=
  match c with
  | None => false
  | Some (PyFloat S754_nan) => false
  | Some _ => true
  end.

(** [c if pd.notnull(c) else 0] *)
Definition or_0 (c : cell) : number :=
  match c with
  | Some x => if notnull c then x else PyInt 0
  | None => PyInt 0
  end.

(** ** Rows of the table *)

Record Row := {
  Instrument : string;
  Expiry : string;
  Strike_Price : number;
  Option_Type : string;
  Open_Interest : cell;
  IV_Change : cell;
  Price_Change : cell;
}.

(** ** The row classifier *)

Definition identify_writers_with_iv (row : Row) : string :=
  let price_change := or_0 (Price_Change row) in
  let iv_change := or_0 (IV_Change row) in
  let open_interest := or_0 (Open_Interest row) in
  if bool_decide (Option_Type row = "Call") then
    if lt_0 price_change && lt_0 iv_change && gt_0 open_interest then
      "Call Writers (IV Falling)"
    else if gt_0 price_change && gt_0 iv_change && lt_0 open_interest then
      "Call Buyers (IV Rising)"
    else "Neutral"
  else if bool_decide (Option_Type row = "Put") then
    if gt_0 price_change && lt_0 iv_change && gt_0 open_interest then
      "Put Writers (IV Falling)"
    else if lt_0 price_change && gt_0 iv_change && lt_0 open_interest then
      "Put Buyers (IV Rising)"
    else "Neutral"
  else "Neutral".

(** The closed set of labels. *)
Definition labels : list string :=
  [ "Call Writers (IV Falling)"; "Call Buyers (IV Rising)";
    "Put Writers (IV Falling)"; "Put Buyers (IV Rising)"; "Neutral" ].

(** ** Signs

    The sign of the quantity a cell stands for: [-1], [0] or [1]. A finite
    float [(-1)^s * m * 2^e] has a positive mantissa [m], so its sign is that
    of [s]; both zeros have sign [0]; an absent cell ([None] or NaN) counts
    as [0]. *)

Definition float_sgn (f : spec_float) : Z :=
  match f with
  | S754_zero _ => 0
  | S754_nan => 0
  | S754_infinity s => if s then -1 else 1
  | S754_finite s _ _ => if s then -1 else 1
  end.

Definition sgn (c : cell) : Z :=
  match c with
  | None => 0
  | Some (PyInt z) => Z.sgn z
  | Some (PyFloat f) => float_sgn f
  end.

(** The rule table of the specification, on the option type and the three
    signs; its four conditions exclude one another. *)
Definition rule_table (option_type : string) (price iv oi : Z) : string :=
  if decide (option_type = "Call" /\ price < 0 /\ iv < 0 /\ 0 < oi) then
    "Call Writers (IV Falling)"
  else if decide (option_type = "Call" /\ 0 < price /\ 0 < iv /\ oi < 0) then
    "Call Buyers (IV Rising)"
  else if decide (option_type = "Put" /\ 0 < price /\ iv < 0 /\ 0 < oi) then
    "Put Writers (IV Falling)"
  else if decide (option_type = "Put" /\ price < 0 /\ 0 < iv /\ oi < 0) then
    "Put Buyers (IV Rising)"
  else "Neutral".

(** Replace an absent cell by [0] when [b] is set. *)
Definition fill_0 (b : bool) (c : cell) : cell :=
  if b && negb (notnull c) then Some (PyInt 0) else c.

Definition fill_row (bp bi bo : bool) (r : Row) : Row :=
  {| Instrument := Instrument r;
     Expiry := Expiry r;
     Strike_Price := Strike_Price r;
     Option_Type := Option_Type r;
     Open_Interest := fill_0 bo (Open_Interest r);
     IV_Change := fill_0 bi (IV_Change r);
     Price_Change := fill_0 bp (Price_Change r) |}.

(** ** Exceptions *)

Inductive exn :=
  | RequestException
      (* raised by requests.get *)
  | ValueError
  | TypeError
  | OverflowError
  | OSError.

Inductive result (A : Type) :=
  | Ok (a : A)
  | Raise (e : exn).
Arguments Ok {A} a.
Arguments Raise {A} e.

(** ** Floating point

    Python floats are binary64: 53 bits of precision, round to nearest even.
    The operations of [SpecFloat] compute on any mantissa and exponent and
    round the exact result, so an integer is given by itself and exponent 0. *)

Definition float_of_int (z : Z) : spec_float :=
  match z with
  | Z0 => S754_zero false
  | Zpos m => S754_finite false m 0
  | Zneg m => S754_finite true m 0
  end.

(** [a / b] for two ints ([b] not 0): the quotient rounded once, or
    [OverflowError] when it is too large for a float. *)
Definition int_truediv (a b : Z) : result spec_float :=
  match SFdiv 53 1024 (float_of_int a) (float_of_int b) with
  | S754_infinity _ => Raise OverflowError
  | q => Ok q
  end.

(** C's [modf]: the fractional part and the integral part, both of the sign
    of [d]. *)
Definition modf (d : spec_float) : spec_float * Z :=
  match d with
  | S754_finite s m e =>
      if 0 <=? e then (S754_zero s, (if s then -1 else 1) * (Zpos m * 2 ^ e))
      else
        let k := - e in
        let ip := Z.shiftr (Zpos m) k in
        let fr := Zpos m - Z.shiftl ip k in
        (match fr with Zpos p => S754_finite s p e | _ => S754_zero s end,
         (if s then -1 else 1) * ip)
  | _ => (d, 0)
  end.

(** The nearest integer, halfway cases to the even one. *)
Definition round_half_even (x : spec_float) : Z :=
  match x with
  | S754_finite s m e =>
      let n :=
        if 0 <=? e then Zpos m * 2 ^ e
        else
          let k := - e in
          let q := Z.shiftr (Zpos m) k in
          let r := Zpos m - Z.shiftl q k in
          let half := 2 ^ (k - 1) in
          if (half <? r) || ((r =? half) && Z.odd q) then q + 1 else q in
      if s then - n else n
  | _ => 0
  end.

(** ** Instants and dates

    A [datetime] is an instant, counted in microseconds since the epoch (the
    resolution of Python's [datetime]); a [timedelta] is a number of
    microseconds. Instants run from year 1 to year 9999. *)

Abbreviation datetime := Z.

Definition timedelta_days (days : Z) : Z := days * 86400 * 1000000.

Definition datetime_max : datetime := 253402300799999999.

(** [t + delta], which raises when the sum is past year 9999. *)
Definition datetime_add (t : datetime) (delta : Z) : result datetime :=
  if t + delta <=? datetime_max then Ok (t + delta) else Raise OverflowError.

(** [datetime.utcfromtimestamp(d)] for a float [d] of seconds (CPython on
    Linux, 64-bit [time_t]): the seconds are split by [modf], the fraction
    is multiplied by 1e6 and rounded half to even, and a carry goes to the
    seconds; the seconds must fit [time_t] ([OverflowError]), [gmtime]
    ([OSError]) and the years 1 to 9999 ([ValueError]). *)
Definition utcfromtimestamp (d : spec_float) : result datetime :=
  match d with
  | S754_nan => Raise ValueError
  | S754_infinity _ => Raise OverflowError
  | _ =>
      let '(floatpart, intpart) := modf d in
      let floatpart :=
        round_half_even (SFmul 53 1024 floatpart (float_of_int 1000000)) in
      let '(floatpart, intpart) :=
        if 1000000 <=? floatpart then (floatpart - 1000000, intpart + 1)
        else if floatpart <? 0 then (floatpart + 1000000, intpart - 1)
        else (floatpart, intpart) in
      if (intpart <? - 2 ^ 63) || (2 ^ 63 <? intpart) then Raise OverflowError
      else if (intpart <? -67768040609740800) || (67768036191676799 <? intpart)
      then Raise OSError
      else if (intpart <? -62135596800) || (253402300799 <? intpart)
      then Raise ValueError
      else Ok (intpart * 1000000 + floatpart)
  end.

(** Year, month and day of a day number counted from 1970-01-01, in the
    proleptic Gregorian calendar. *)
Definition civil_from_days (days : Z) : Z * Z * Z :=
  let z := days + 719468 in
  let era := z `div` 146097 in
  let doe := z - era * 146097 in
  let yoe := (doe - doe `div` 1460 + doe `div` 36524 - doe `div` 146096) `div` 365 in
  let doy := doe - (365 * yoe + yoe `div` 4 - yoe `div` 100) in
  let mp := (5 * doy + 2) `div` 153 in
  let d := doy - (153 * mp + 2) `div` 5 + 1 in
  let m := if mp <? 10 then mp + 3 else mp - 9 in
  let y := yoe + era * 400 + (if m <=? 2 then 1 else 0) in
  (y, m, d).

Definition two_digits (n : Z) : string :=
  if n <? 10 then "0" +:+ pretty n else pretty n.

(** [t.strftime('%Y-%m-%d')] *)
Definition strftime_Ymd (t : datetime) : string :=
  let '(y, m, d) := civil_from_days (t `div` timedelta_days 1) in
  pretty y +:+ "-" +:+ two_digits m +:+ "-" +:+ two_digits d.

(** ** Instruments and the expiry filter *)

(** One element of the instrument listing; the fields are the keys the
    script reads. *)
Record instrument := {
  instrument_name : string;
  expiration_timestamp : Z;
  strike : number;
  option_type : string;
}.

(** [datetime.utcfromtimestamp(option['expiration_timestamp'] / 1000)] *)
Definition expiry_date (opt : instrument) : result datetime :=
  match int_truediv (expiration_timestamp opt) 1000 with
  | Ok expiry_timestamp => utcfromtimestamp expiry_timestamp
  | Raise e => Raise e
  end.

(** One turn of the loop of the filter: [opt] is appended to
    [weekly_options] when its expiry date lies in the week; a timestamp that
    does not convert ends the loop with its exception. *)
Definition filter_weekly_expiry_options_iter
    (current_time one_week_later : datetime)
    (weekly_options : result (list instrument)) (opt : instrument)
    : result (list instrument) :=
  match weekly_options with
  | Raise e => Raise e
  | Ok weekly_options =>
      match expiry_date opt with
      | Raise e => Raise e
      | Ok expiry_date =>
          if (current_time <=? expiry_date) && (expiry_date <=? one_week_later)
          then Ok (weekly_options ++ [opt])
          else Ok weekly_options
      end
  end.

(** [utcnow] is the instant [datetime.utcnow()] returns. *)
Definition filter_weekly_expiry_options (utcnow : datetime)
    (options : list instrument) : result (list instrument) :=
  let current_time := utcnow in
  match datetime_add current_time (timedelta_days 7) with
  | Raise e => Raise e
  | Ok one_week_later =>
      fold_left (filter_weekly_expiry_options_iter current_time one_week_later)
                options (Ok [])
  end.

(** ** The network *)

(** A JSON value, as [response.json()] decodes it. *)
Unset Elimination Schemes.
Inductive json :=
  | JNull
  | JBool (b : bool)
  | JNumber (n : number)
  | JString (s : string)
  | JArray (items : list json)
  | JObject (members : list (string * json)).
Set Elimination Schemes.

(** A decoded body that is not a dict: [None], a bool, a number, a str or a
    list. *)
Inductive value :=
  | PyNone
  | PyBool (b : bool)
  | PyNum (n : number)
  | PyStr (s : string)
  | PyList (items : list json).

(** [bool(v)] *)
Definition truthy (v : value) : bool :=
  match v with
  | PyNone => false
  | PyBool b => b
  | PyNum (PyInt z) => negb (z =? 0)
  | PyNum (PyFloat (S754_zero _)) => false
  | PyNum (PyFloat _) => true
  | PyStr EmptyString => false
  | PyStr _ => true
  | PyList [] => false
  | PyList _ => true
  end.

(** [needle in s] for two strs *)
Fixpoint substring_of (needle s : string) : bool :=
  String.prefix needle s
  || match s with
     | EmptyString => false
     | String _ s' => substring_of needle s'
     end.

(** ['result' in v]: a substring of a str, an element of a list;
    [TypeError] on a value that is not iterable. *)
Definition contains_result (v : value) : result bool :=
  match v with
  | PyNone | PyBool _ | PyNum _ => Raise TypeError
  | PyStr s => Ok (substring_of "result" s)
  | PyList items =>
      Ok (existsb (fun item => match item with
                               | JString s => bool_decide (s = "result")
                               | _ => false
                               end) items)
  end.

(** What [requests.get] followed by [response.json()] can come to. The
    members of a decoded object all have the type [A] of the one member the
    script reads, ['result']. *)
Inductive http_outcome (A : Type) :=
  | Raises
      (* requests.get raises (no connection, timeout, ...) *)
  | Text (text : string)
      (* a body response.json() rejects with ValueError *)
  | Other (v : value)
      (* a body that decodes to something else than a JSON object *)
  | Json (data : gmap string A).
      (* a body that decodes to a JSON object *)
Arguments Raises {A}.
Arguments Text {A} text.
Arguments Other {A} v.
Arguments Json {A} data.

(** What [response.json()] returned. *)
Inductive decoded (A : Type) :=
  | Dict (data : gmap string A)
  | NotDict (v : value).
Arguments Dict {A} data.
Arguments NotDict {A} v.

(** One element of the 'result' array of a book summary: a flat object of
    numbers and nulls. *)
Abbreviation book_summary := (gmap string cell).

Record network := {
  get_instruments : http_outcome (list instrument);
  get_book_summary_by_instrument : string -> http_outcome (list book_summary);
}.

(** ** The page and the tables *)

(** The final frame: the seven columns of a row, and 'Writer Type'. *)
Abbreviation DataFrame := (list (Row * string)).

(** [col.value_counts()]: how often each value occurs. The order of the
    counts is not modelled. *)
Definition value_counts (col : list string) : gmap string nat :=
  foldr (fun v counts => <[v := S (default 0%nat (counts !! v))]> counts) ∅ col.

Inductive figure :=
  | px_bar (data_frame : DataFrame) (x y title : string)
  | px_pie (counts : gmap string nat) (names values title : string).

(** The text of an [st.error]: a string, or the f-string
    [f"Error in response: {data}"] with its argument left unformatted. *)
Inductive message :=
  | Msg (s : string)
  | Error_in_response (data : decoded (list instrument)).

(** What the script does to the outside, in order. *)
Inductive event :=
  | requests_get (endpoint : string) (params : list (string * string))
  | st_title (s : string)
  | st_error (m : message)
  | st_warning (s : string)
  | st_subheader (s : string)
  | st_dataframe (df : DataFrame)
  | st_plotly_chart (fig : figure).

(** ** Computations: a trace of events, and exceptions *)

(** A computation extends the trace and returns a value or raises. *)
Definition M (A : Type) : Type := list event -> result A * list event.

Definition ret {A} (a : A) : M A := fun tr => (Ok a, tr).

Definition bind {A B} (c : M A) (k : A -> M B) : M B :=
  fun tr =>
    match c tr with
    | (Ok a, tr') => k a tr'
    | (Raise e, tr') => (Raise e, tr')
    end.

Definition raise {A} (e : exn) : M A := fun tr => (Raise e, tr).

Definition emit (ev : event) : M unit := fun tr => (Ok tt, tr ++ [ev]).

(** A pure step that may raise. *)
Definition lift {A} (r : result A) : M A := fun tr => (r, tr).

Notation "x <- c ;; k" := (bind c (fun x => k))
  (at level 100, c at next level, right associativity).
Notation "c ;;; k" := (bind c (fun _ => k))
  (at level 100, right associativity).

(** [for x in xs: s = body x s] *)
Fixpoint for_in {X S} (xs : list X) (body : X -> S -> M S) (s : S) : M S :=
  match xs with
  | [] => ret s
  | x :: rest => s' <- body x s ;; for_in rest body s'
  end.

(** Run a script on an empty page. *)
Definition run {A} (c : M A) : result A * list event := c [].

(** ** Fetching *)

Definition base_url : string := "https://www.deribit.com/api/v2/public".

Definition get_book_summary (net : network) (instrument_name : string)
    : M (decoded (list book_summary)) :=
  let endpoint := base_url +:+ "/get_book_summary_by_instrument" in
  let params := [("instrument_name", instrument_name)] in
  emit (requests_get endpoint params) ;;;
  match get_book_summary_by_instrument net instrument_name with
  | Raises => raise RequestException
  | Json data => ret (Dict data)
  | Other v => ret (NotDict v)
  | Text text =>
      emit (st_error (Msg ("Error decoding JSON response for " +:+
                           instrument_name +:+ ": " +:+ text))) ;;;
      ret (NotDict PyNone)
  end.

Definition get_all_btc_options (net : network) : M (list instrument) :=
  let endpoint := base_url +:+ "/get_instruments" in
  let params := [("currency", "BTC"); ("kind", "option"); ("expired", "false")] in
  emit (requests_get endpoint params) ;;;
  match get_instruments net with
  | Raises => raise RequestException
  | Json data =>
      match data !! "result" with
      | Some result => ret result
      | None => emit (st_error (Error_in_response (Dict data))) ;;; ret []
      end
  | Other data =>
      has_result <- lift (contains_result data) ;;
      if has_result then
        (* data['result'] on a str or a list *)
        raise TypeError
      else emit (st_error (Error_in_response (NotDict data))) ;;; ret []
  | Text text =>
      emit (st_error (Msg ("Error decoding JSON response: " +:+ text))) ;;;
      ret []
  end.

(** ** Building the table *)

(** A Python int as a float, for ints below 2^1024: the mantissa is cut to
    53 bits, rounded to nearest, halfway cases to even. *)
Definition round_53 (m : positive) : positive * Z :=
  let k := Zpos (digits2_pos m) - 53 in
  if k <=? 0 then (m, 0)
  else
    let q := Z.shiftr (Zpos m) k in
    let r := Zpos m - Z.shiftl q k in
    let half := 2 ^ (k - 1) in
    (Z.to_pos (if (half <? r) || ((r =? half) && Z.odd q) then q + 1 else q), k).

Definition float_of_Z (z : Z) : spec_float :=
  match z with
  | Z0 => S754_zero false
  | Zpos m => S754_finite false (fst (round_53 m)) (snd (round_53 m))
  | Zneg m => S754_finite true (fst (round_53 m)) (snd (round_53 m))
  end.

(** The dtype [pd.DataFrame] infers for a column of numbers and [None]s
    (pandas' [maybe_convert_objects]). The column is scanned from its first
    cell; until a [None] has been met each int is checked, and the scan gives
    up, leaving the column as it is, at an int outside -2^63 .. 2^64 - 1, or
    when a negative int and an int from 2^63 on have both been met. Of the
    columns scanned to their end, one that holds a float, or an int and a
    [None], becomes float64; a column of ints only, or of [None]s only, is
    kept. *)
Definition is_float (c : cell) : bool :=
  match c with Some (PyFloat _) => true | _ => false end.

Definition is_int (c : cell) : bool :=
  match c with Some (PyInt _) => true | _ => false end.

Definition is_None (c : cell) : bool :=
  match c with None => true | _ => false end.

Fixpoint seen_object (null_ sint_ uint_ : bool) (col : list cell) : bool :=
  match col with
  | [] => false
  | None :: col => seen_object true sint_ uint_ col
  | Some (PyFloat _) :: col => seen_object null_ sint_ uint_ col
  | Some (PyInt val) :: col =>
      if null_ then seen_object null_ sint_ uint_ col
      else
        let sint_ := sint_ || ((- 2 ^ 63 <=? val) && (val <? 0)) in
        let uint_ := uint_ || ((2 ^ 63 <=? val) && (val <? 2 ^ 64)) in
        if (uint_ && sint_) || (2 ^ 64 <=? val) || (val <? - 2 ^ 63) then true
        else seen_object null_ sint_ uint_ col
  end.

Definition float64_column (col : list cell) : bool :=
  negb (seen_object false false false col)
  && (existsb is_float col || (existsb is_int col && existsb is_None col)).

(** A cell of a float64 column: [None] is NaN, an int is a float. *)
Definition to_float64 (c : cell) : cell :=
  match c with
  | None => Some (PyFloat S754_nan)
  | Some (PyInt z) => Some (PyFloat (float_of_Z z))
  | Some (PyFloat f) => Some (PyFloat f)
  end.

Definition astype (float64 : bool) (c : cell) : cell :=
  if float64 then to_float64 c else c.

(** [pd.DataFrame(data)]: the rows of [data], each numeric column with its
    inferred dtype. *)
Definition pd_DataFrame (data : list Row) : list Row :=
  let strike := float64_column ((fun r => Some (Strike_Price r)) <$> data) in
  let oi := float64_column (Open_Interest <$> data) in
  let iv := float64_column (IV_Change <$> data) in
  let price := float64_column (Price_Change <$> data) in
  (fun r =>
     {| Instrument := Instrument r;
        Expiry := Expiry r;
        Strike_Price :=
          match astype strike (Some (Strike_Price r)) with
          | Some x => x
          | None => Strike_Price r
          end;
        Option_Type := Option_Type r;
        Open_Interest := astype oi (Open_Interest r);
        IV_Change := astype iv (IV_Change r);
        Price_Change := astype price (Price_Change r) |}) <$> data.

(** [df['Writer Type'] = df.apply(f, axis=1)] on the frame of [data]. On a
    frame without rows pandas' [apply] returns an empty frame, not a column,
    and assigning a frame without columns to a column raises. *)
Definition assign_apply (f : Row -> string) (data : list Row) : M DataFrame :=
  match data with
  | [] => raise ValueError
  | _ => ret ((fun row => (row, f row)) <$> data)
  end.

(** One turn of the loop of [create_options_df]: the expiry date is computed
    first; then the summary is asked for, and the row of [opt] is appended to
    [data] when the summary is a dict that has a 'result'. *)
Definition create_options_df_iter (net : network) (opt : instrument)
    (data : list Row) : M (list Row) :=
  let instrument_name := instrument_name opt in
  expiry_timestamp <- lift (int_truediv (expiration_timestamp opt) 1000) ;;
  expiry_datetime <- lift (utcfromtimestamp expiry_timestamp) ;;
  let expiry_date := strftime_Ymd expiry_datetime in
  summary <- get_book_summary net instrument_name ;;
  match summary with
  | Dict summary =>
      (* a dict is true when it is not empty *)
      if negb (size summary =? 0)%nat then
        match summary !! "result" with
        | Some summary_result =>
            let result :=
              match summary_result with
              | first :: _ => first
              | [] => ∅
              end in
            let open_interest := mjoin (result !! "open_interest") in
            let iv_change := mjoin (result !! "iv") in
            let price_change := mjoin (result !! "last") in
            ret (data ++ [
              {| Instrument := instrument_name;
                 Expiry := expiry_date;
                 Strike_Price := strike opt;
                 Option_Type :=
                   if bool_decide (option_type opt = "call")
                   then "Call" else "Put";
                 Open_Interest := open_interest;
                 IV_Change := iv_change;
                 Price_Change := price_change |} ])
        | None => ret data
        end
      else ret data
  | NotDict summary =>
      if truthy summary then
        has_result <- lift (contains_result summary) ;;
        if has_result then
          (* summary['result'] on a str or a list *)
          raise TypeError
        else ret data
      else ret data
  end.

Definition create_options_df (net : network) (options : list instrument)
    : M DataFrame :=
  data <- for_in options (create_options_df_iter net) [] ;;
  let df := pd_DataFrame data in
  assign_apply identify_writers_with_iv df.

(** ** The dashboard *)

Definition dashboard (net : network) (utcnow : datetime) : M unit :=
  emit (st_title "Bitcoin Weekly Options Dashboard (Deribit)") ;;;
  btc_options <- get_all_btc_options net ;;
  (* a list is true when it is not empty *)
  if negb (length btc_options =? 0)%nat then
    weekly_options <- lift (filter_weekly_expiry_options utcnow btc_options) ;;
    if (0 <? length weekly_options)%nat then
      options_df <- create_options_df net weekly_options ;;
      emit (st_subheader "Weekly Expiring Bitcoin Options (Calls & Puts)") ;;;
      emit (st_dataframe options_df) ;;;
      emit (st_subheader "Open Interest by Instrument") ;;;
      let bar_fig := px_bar options_df "Instrument" "Open Interest"
                       "Open Interest by Instrument" in
      emit (st_plotly_chart bar_fig) ;;;
      emit (st_subheader "Call vs Put Distribution") ;;;
      let call_put_distribution :=
        value_counts ((fun r => Option_Type (fst r)) <$> options_df) in
      let pie_fig := px_pie call_put_distribution "Option Type" "count"
                       "Call vs Put Distribution" in
      emit (st_plotly_chart pie_fig) ;;;
      emit (st_subheader "Call/Put Writers vs Buyers") ;;;
      let writer_buyer_distribution := value_counts (snd <$> options_df) in
      let writer_pie_fig := px_pie writer_buyer_distribution "Writer Type" "count"
                              "Call/Put Writers vs Buyers" in
      emit (st_plotly_chart writer_pie_fig)
    else emit (st_warning "No weekly expiring options found.")
  else emit (st_error (Msg "Failed to fetch BTC options from Deribit.")).

(** ** Notions used in the statements *)

(** The timestamp of an instrument converts to an instant. *)
Definition converts (opt : instrument) : Prop :=
  exists e, expiry_date opt = Ok e.

(** The expiration instant of an instrument, as converted, lies in the week
    that starts at [now], both ends included. *)
Definition expires_within_week (now : datetime) (opt : instrument) : Prop :=
  match expiry_date opt with
  | Ok e => now <= e <= now + timedelta_days 7
  | Raise _ => False
  end.

#[global] Instance expires_within_week_dec now opt :
  Decision (expires_within_week now opt).
Proof. unfold expires_within_week. destruct (expiry_date opt); apply _. Defined.

(** The 'Expiry' of the row of an instrument. *)
Definition expiry_string (opt : instrument) : string :=
  match expiry_date opt with
  | Ok t => strftime_Ymd t
  | Raise _ => ""
  end.

(** What the summary endpoint answers for an instrument. *)
Definition summary_of (net : network) (opt : instrument)
    : http_outcome (list book_summary) :=
  get_book_summary_by_instrument net (instrument_name opt).

(** The 'result' member of an answer, when it decodes and has one. *)
Definition usable_result (o : http_outcome (list book_summary))
    : option (list book_summary) :=
  match o with
  | Json data => data !! "result"
  | _ => None
  end.

(** The row of an instrument whose summary has the 'result' [summary_result]. *)
Definition row_of (opt : instrument) (summary_result : list book_summary) : Row :=
  let result := default ∅ (head summary_result) in
  {| Instrument := instrument_name opt;
     Expiry := expiry_string opt;
     Strike_Price := strike opt;
     Option_Type := if bool_decide (option_type opt = "call") then "Call" else "Put";
     Open_Interest := mjoin (result !! "open_interest");
     IV_Change := mjoin (result !! "iv");
     Price_Change := mjoin (result !! "last") |}.

(** The exception an answer of the summary endpoint ends
    [create_options_df] with: that of the request; or [TypeError], when the
    body is not a dict, is true, and cannot be searched for 'result' or
    cannot be indexed by it. *)
Definition summary_raises {A} (o : http_outcome A) : option exn :=
  match o with
  | Raises => Some RequestException
  | Other v =>
      if truthy v then
        match contains_result v with
        | Ok false => None
        | _ => Some TypeError
        end
      else None
  | _ => None
  end.

(** The timestamp of the instrument converts and neither its summary request
    nor the reading of its summary raises. *)
Definition goes_through (net : network) (opt : instrument) : Prop :=
  converts opt /\ summary_raises (summary_of net opt) = None.

(** The rows of the instruments that have a usable summary, in order. *)
Definition rows_of (net : network) (options : list instrument) : list Row :=
  omap (fun opt => row_of opt <$> usable_result (summary_of net opt)) options.

(** The request for the summary of an instrument, and the error shown when
    the answer does not decode. *)
Definition summary_request (opt : instrument) : event :=
  requests_get (base_url +:+ "/get_book_summary_by_instrument")
               [("instrument_name", instrument_name opt)].

Definition decoding_error (opt : instrument) (text : string) : event :=
  st_error (Msg ("Error decoding JSON response for " +:+ instrument_name opt
                 +:+ ": " +:+ text)).

Definition summary_events (net : network) (opt : instrument) : list event :=
  summary_request opt ::
  match summary_of net opt with
  | Text text => [decoding_error opt text]
  | _ => []
  end.

(** The events that render data (a table, a chart, their headings), and the
    warnings. *)
Definition shows_data (ev : event) : Prop :=
  match ev with
  | st_dataframe _ | st_plotly_chart _ | st_subheader _ => True
  | _ => False
  end.

Definition is_warning (ev : event) : Prop :=
  match ev with
  | st_warning _ => True
  | _ => False
  end.

(** Two rows agree up to the dtype of their numeric columns: the same
    strings, and numbers of the same sign, absent in the one when absent in
    the other. *)
Definition same_up_to_dtype (r r' : Row) : Prop :=
  Instrument r' = Instrument r /\
  Expiry r' = Expiry r /\
  Option_Type r' = Option_Type r /\
  sgn (Some (Strike_Price r')) = sgn (Some (Strike_Price r)) /\
  (sgn (Open_Interest r') = sgn (Open_Interest r) /\
   notnull (Open_Interest r') = notnull (Open_Interest r)) /\
  (sgn (IV_Change r') = sgn (IV_Change r) /\
   notnull (IV_Change r') = notnull (IV_Change r)) /\
  (sgn (Price_Change r') = sgn (Price_Change r) /\
   notnull (Price_Change r') = notnull (Price_Change r)).

(** ** Sample data *)

Definition call_70000 : instrument :=
  {| instrument_name := "BTC-8NOV24-70000-C";
     expiration_timestamp := 1731052800000;
     strike := PyFloat (S754_finite false 70000 0);
     option_type := "call" |}.

Definition put_70000 : instrument :=
  {| instrument_name := "BTC-8NOV24-70000-P";
     expiration_timestamp := 1731052800000;
     strike := PyFloat (S754_finite false 70000 0);
     option_type := "put" |}.

Definition call_72000 : instrument :=
  {| instrument_name := "BTC-8NOV24-72000-C";
     expiration_timestamp := 1731052800000;
     strike := PyFloat (S754_finite false 72000 0);
     option_type := "call" |}.

(** An instrument whose type is spelled in capitals. *)
Definition odd_74000 : instrument :=
  {| instrument_name := "BTC-8NOV24-74000-C";
     expiration_timestamp := 1731052800000;
     strike := PyFloat (S754_finite false 74000 0);
     option_type := "CALL" |}.

(** A summary: open interest 12.5, iv 55, last 31/1024. *)
Definition sample_summary : book_summary :=
  {[ "open_interest" := Some (PyFloat (S754_finite false 25 (-1)));
     "iv" := Some (PyInt 55);
     "last" := Some (PyFloat (S754_finite false 31 (-10))) ]}.

Definition sample_listing : list instrument :=
  [call_70000; put_70000; call_72000].

(** Tuesday 5 November 2024, 09:46:40 UTC. *)
Definition sample_now : datetime := 1730800000000000.

(** Every summary is there. *)
Definition net_ok : network :=
  {| get_instruments := Json {[ "result" := sample_listing ]};
     get_book_summary_by_instrument := fun _ =>
       Json {[ "result" := [sample_summary] ]} |}.

(** The summary of the put is not JSON. *)
Definition net_undecodable : network :=
  {| get_instruments := Json {[ "result" := sample_listing ]};
     get_book_summary_by_instrument := fun name =>
       if bool_decide (name = "BTC-8NOV24-70000-P")
       then Text "<html>502 Bad Gateway</html>"
       else Json {[ "result" := [sample_summary] ]} |}.

(** The request for the summary of the put fails in transport. *)
Definition net_down : network :=
  {| get_instruments := Json {[ "result" := sample_listing ]};
     get_book_summary_by_instrument := fun name =>
       if bool_decide (name = "BTC-8NOV24-70000-P")
       then Raises
       else Json {[ "result" := [sample_summary] ]} |}.

(** The listing is empty. *)
Definition net_empty : network :=
  {| get_instruments := Json {[ "result" := [] ]};
     get_book_summary_by_instrument := fun _ =>
       Json {[ "result" := [sample_summary] ]} |}.

(** The summary of the put has an empty 'result'. *)
Definition net_empty_result : network :=
  {| get_instruments := Json {[ "result" := sample_listing ]};
     get_book_summary_by_instrument := fun name =>
       if bool_decide (name = "BTC-8NOV24-70000-P")
       then Json {[ "result" := [] ]}
       else Json {[ "result" := [sample_summary] ]} |}.

(** ** Reading a page *)

(** The request an event is, the error, the warning, the table or the chart
    it shows; [omap] of one of these over a page lists them in order. *)
Definition request_of (ev : event) : option (string * list (string * string)) :=
  match ev with
  | requests_get endpoint params => Some (endpoint, params)
  | _ => None
  end.

Definition error_of (ev : event) : option message :=
  match ev with
  | st_error m => Some m
  | _ => None
  end.

Definition warning_of (ev : event) : option string :=
  match ev with
  | st_warning s => Some s
  | _ => None
  end.

Definition table_of (ev : event) : option DataFrame :=
  match ev with
  | st_dataframe df => Some df
  | _ => None
  end.

Definition chart_of (ev : event) : option figure :=
  match ev with
  | st_plotly_chart fig => Some fig
  | _ => None
  end.

(** The request of the listing. *)
Definition listing_request : string * list (string * string) :=
  (base_url +:+ "/get_instruments",
   [("currency", "BTC"); ("kind", "option"); ("expired", "false")]).

(** The error shown for an instrument whose summary does not decode. *)
Definition decoding_message (net : network) (opt : instrument) : option message :=
  match summary_of net opt with
  | Text text =>
      Some (Msg ("Error decoding JSON response for " +:+ instrument_name opt
                 +:+ ": " +:+ text))
  | _ => None
  end.

(** What the dashboard renders for the table [df], after the requests. *)
Definition rendering (df : DataFrame) : list event :=
  [ st_subheader "Weekly Expiring Bitcoin Options (Calls & Puts)";
    st_dataframe df;
    st_subheader "Open Interest by Instrument";
    st_plotly_chart (px_bar df "Instrument" "Open Interest"
                            "Open Interest by Instrument");
    st_subheader "Call vs Put Distribution";
    st_plotly_chart (px_pie (value_counts ((fun r => Option_Type (fst r)) <$> df))
                            "Option Type" "count" "Call vs Put Distribution");
    st_subheader "Call/Put Writers vs Buyers";
    st_plotly_chart (px_pie (value_counts (snd <$> df))
                            "Writer Type" "count" "Call/Put Writers vs Buyers") ].

(** More sample data: no summary has a 'result'; the listing does not
    decode; the listing request fails in transport. *)
Definition net_no_result : network :=
  {| get_instruments := Json {[ "result" := sample_listing ]};
     get_book_summary_by_instrument := fun name =>
       if bool_decide (name = "BTC-8NOV24-70000-P")
       then Text "<html>502 Bad Gateway</html>"
       else Json {[ "error" := [] ]} |}.

Definition net_listing_down : network :=
  {| get_instruments := Raises;
     get_book_summary_by_instrument := fun _ =>
       Json {[ "result" := [sample_summary] ]} |}.

(** An instrument that expires in the first second of year 10000. *)
Definition call_year_10000 : instrument :=
  {| instrument_name := "BTC-1JAN10000-70000-C";
     expiration_timestamp := 253402300800000;
     strike := PyFloat (S754_finite false 70000 0);
     option_type := "call" |}.

(** An instrument that expired a week before [sample_now]. *)
Definition expired_put : instrument :=
  {| instrument_name := "BTC-1NOV24-70000-P";
     expiration_timestamp := 1730448000000;
     strike := PyFloat (S754_finite false 70000 0);
     option_type := "put" |}.

(** * Properties *)

(** Unfold the operations of [M] in the goal. *)
Ltac unfold_M := unfold run, bind, emit, ret, raise.

(** The one exception of ['result' in v]. *)
Lemma contains_result_raise v e : contains_result v = Raise e -> e = TypeError.
Proof. destruct v; simpl; congruence. Qed.

(** The cases of the listing, by what the request comes to. *)
Ltac listing_cases net :=
  unfold get_all_btc_options, lift; unfold_M;
  let text := fresh "text" in
  let v := fresh "v" in
  let data := fresh "data" in
  let e := fresh "e" in
  let Hc := fresh "Hc" in
  destruct (get_instruments net) as [|text|v|data] eqn:?; simpl;
  [ | | destruct (contains_result v) as [[|]|e] eqn:Hc; simpl;
        [ | | pose proof (contains_result_raise _ _ Hc); subst e ]
      | destruct (data !! "result") eqn:?; simpl ].

(** Discharge [Forall (goes_through net)] on a list of sample instruments. *)
Ltac sample_goes_through :=
  repeat (apply Forall_cons_2;
          [split; [eexists; vm_compute; reflexivity | reflexivity]|]);
  apply Forall_nil_2.

(** ** The classifier *)

Lemma lt_0_sgn c : lt_0 (or_0 c) = true <-> sgn c < 0.
Proof.
  destruct c as [[z|f]|]; simpl.
  - rewrite Z.ltb_lt. destruct z; simpl; lia.
  - destruct f as [s|s| |s m e]; try destruct s; simpl;
      unfold SFltb; simpl; split; (lia || discriminate || reflexivity).
  - split; [discriminate | lia].
Qed.

Lemma gt_0_sgn c : gt_0 (or_0 c) = true <-> 0 < sgn c.
Proof.
  destruct c as [[z|f]|]; simpl.
  - rewrite Z.ltb_lt. destruct z; simpl; lia.
  - destruct f as [s|s| |s m e]; try destruct s; simpl;
      unfold SFltb; simpl; split; (lia || discriminate || reflexivity).
  - split; [discriminate | lia].
Qed.

Lemma lt_0_decide c : lt_0 (or_0 c) = bool_decide (sgn c < 0).
Proof.
  apply eq_true_iff_eq. rewrite lt_0_sgn, bool_decide_eq_true. reflexivity.
Qed.

Lemma gt_0_decide c : gt_0 (or_0 c) = bool_decide (0 < sgn c).
Proof.
  apply eq_true_iff_eq. rewrite gt_0_sgn, bool_decide_eq_true. reflexivity.
Qed.

(** The classifier computes the rule table on the signs of its three cells. *)
Lemma identify_writers_with_iv_signs (r : Row) :
  identify_writers_with_iv r =
  rule_table (Option_Type r) (sgn (Price_Change r)) (sgn (IV_Change r))
             (sgn (Open_Interest r)).
Proof.
  unfold identify_writers_with_iv, rule_table.
  rewrite !lt_0_decide, !gt_0_decide.
  repeat (case_bool_decide; simpl); repeat case_decide; try reflexivity;
    exfalso; intuition (congruence || lia).
Qed.

Lemma sgn_fill_0 b c : sgn (fill_0 b c) = sgn c.
Proof.
  unfold fill_0. destruct b; [|reflexivity].
  destruct c as [[z|[]]|]; reflexivity.
Qed.

(** C1: the classifier returns each of the four writer and buyer labels
    exactly when the option type and the signs of price change, IV change and
    open interest are those of the rule table, and 'Neutral' exactly when
    none of the four conditions holds. *)
Theorem identify_writers_with_iv_rule_table (r : Row) :
  let t := Option_Type r in
  let price := sgn (Price_Change r) in
  let iv := sgn (IV_Change r) in
  let oi := sgn (Open_Interest r) in
  (identify_writers_with_iv r = "Call Writers (IV Falling)" <->
     t = "Call" /\ price < 0 /\ iv < 0 /\ 0 < oi) /\
  (identify_writers_with_iv r = "Call Buyers (IV Rising)" <->
     t = "Call" /\ 0 < price /\ 0 < iv /\ oi < 0) /\
  (identify_writers_with_iv r = "Put Writers (IV Falling)" <->
     t = "Put" /\ 0 < price /\ iv < 0 /\ 0 < oi) /\
  (identify_writers_with_iv r = "Put Buyers (IV Rising)" <->
     t = "Put" /\ price < 0 /\ 0 < iv /\ oi < 0) /\
  (identify_writers_with_iv r = "Neutral" <->
     ~ (t = "Call" /\ price < 0 /\ iv < 0 /\ 0 < oi) /\
     ~ (t = "Call" /\ 0 < price /\ 0 < iv /\ oi < 0) /\
     ~ (t = "Put" /\ 0 < price /\ iv < 0 /\ 0 < oi) /\
     ~ (t = "Put" /\ price < 0 /\ 0 < iv /\ oi < 0)).
Proof.
  intros t price iv oi. rewrite identify_writers_with_iv_signs.
  fold t price iv oi. unfold rule_table.
  repeat case_decide; intuition (discriminate || congruence || lia).
Qed.

(** C3: a row whose open interest is not negative (zero, positive or absent)
    is never labelled a buyers row; the row Call, price change 5, IV change 3,
    open interest 100 is 'Neutral'. *)
Theorem identify_writers_with_iv_no_buyers :
  (forall r : Row, 0 <= sgn (Open_Interest r) ->
     identify_writers_with_iv r <> "Call Buyers (IV Rising)" /\
     identify_writers_with_iv r <> "Put Buyers (IV Rising)") /\
  (forall name expiry strike_price,
     identify_writers_with_iv
       {| Instrument := name; Expiry := expiry; Strike_Price := strike_price;
          Option_Type := "Call"; Open_Interest := Some (PyInt 100);
          IV_Change := Some (PyInt 3); Price_Change := Some (PyInt 5) |}
     = "Neutral").
Proof.
  split; [|reflexivity].
  intros r Hoi. rewrite identify_writers_with_iv_signs. unfold rule_table.
  repeat case_decide; split; try discriminate; exfalso; intuition lia.
Qed.

Lemma identify_writers_with_iv_no_buyers_witness :
  0 <= sgn (Some (PyFloat (S754_zero true))) /\
  identify_writers_with_iv
    {| Instrument := "BTC-27DEC24-100000-C"; Expiry := "2024-12-27";
       Strike_Price := PyInt 100000; Option_Type := "Call";
       Open_Interest := Some (PyFloat (S754_zero true));
       IV_Change := Some (PyInt 3); Price_Change := Some (PyInt 5) |}
  <> "Call Buyers (IV Rising)".
Proof.
  split; [simpl; lia|].
  apply (proj1 identify_writers_with_iv_no_buyers). simpl. lia.
Defined.

(** C4: replacing any of the absent cells (None or NaN) among price change,
    IV change and open interest by 0 does not change the label. *)
Theorem identify_writers_with_iv_absent_is_0 (bp bi bo : bool) (r : Row) :
  identify_writers_with_iv (fill_row bp bi bo r) = identify_writers_with_iv r.
Proof.
  rewrite !identify_writers_with_iv_signs. simpl.
  rewrite !sgn_fill_0. reflexivity.
Qed.

(** C5: the classifier is total: on every row it returns one of the five
    labels, which are distinct; in the table the label of a row is computed
    from that row alone, whatever the rows before and after it. *)
Theorem identify_writers_with_iv_total :
  NoDup labels /\
  (forall r : Row, identify_writers_with_iv r ∈ labels) /\
  (forall (before after : list Row) (r : Row) (tr : list event),
     exists df,
       assign_apply identify_writers_with_iv (before ++ r :: after) tr = (Ok df, tr) /\
       df !! length before = Some (r, identify_writers_with_iv r)).
Proof.
  split; [|split].
  - apply (bool_decide_unpack _). vm_compute. exact I.
  - intros r. rewrite identify_writers_with_iv_signs. unfold rule_table, labels.
    repeat case_decide; rewrite !elem_of_cons; auto 10.
  - intros before after r tr.
    exists ((fun row => (row, identify_writers_with_iv row)) <$> (before ++ r :: after)).
    split.
    + destruct before; reflexivity.
    + rewrite list_lookup_fmap, list_lookup_middle by reflexivity. reflexivity.
Qed.

(** C6: the label depends only on the option type and on the signs of the
    three cells (an absent cell has sign 0): two rows that agree on these get
    the same label. *)
Theorem identify_writers_with_iv_sign_only (r1 r2 : Row) :
  Option_Type r1 = Option_Type r2 ->
  sgn (Price_Change r1) = sgn (Price_Change r2) ->
  sgn (IV_Change r1) = sgn (IV_Change r2) ->
  sgn (Open_Interest r1) = sgn (Open_Interest r2) ->
  identify_writers_with_iv r1 = identify_writers_with_iv r2.
Proof.
  intros Ht Hp Hi Ho. rewrite !identify_writers_with_iv_signs.
  rewrite Ht, Hp, Hi, Ho. reflexivity.
Qed.

Lemma identify_writers_with_iv_sign_only_witness :
  identify_writers_with_iv
    {| Instrument := "BTC-8NOV24-70000-C"; Expiry := "2024-11-08";
       Strike_Price := PyInt 70000; Option_Type := "Call";
       Open_Interest := Some (PyInt 10);
       IV_Change := Some (PyInt (-2));
       Price_Change := Some (PyInt (-5)) |}
  = identify_writers_with_iv
    {| Instrument := "BTC-8NOV24-72000-C"; Expiry := "2024-11-08";
       Strike_Price := PyInt 72000; Option_Type := "Call";
       Open_Interest := Some (PyFloat (S754_finite false 25 (-1)));
       IV_Change := Some (PyFloat (S754_infinity true));
       Price_Change := Some (PyFloat (S754_finite true 1 (-1))) |}.
Proof.
  apply identify_writers_with_iv_sign_only; reflexivity.
Defined.

(** The examples of the specification. *)
Example identify_call_writers name expiry strike_price :
  identify_writers_with_iv
    {| Instrument := name; Expiry := expiry; Strike_Price := strike_price;
       Option_Type := "Call"; Open_Interest := Some (PyInt 10);
       IV_Change := Some (PyInt (-2)); Price_Change := Some (PyInt (-5)) |}
  = "Call Writers (IV Falling)".
Proof. reflexivity. Qed.

Example identify_put_writers name expiry strike_price :
  identify_writers_with_iv
    {| Instrument := name; Expiry := expiry; Strike_Price := strike_price;
       Option_Type := "Put"; Open_Interest := Some (PyInt 50);
       IV_Change := Some (PyInt (-1)); Price_Change := Some (PyInt 3) |}
  = "Put Writers (IV Falling)".
Proof. reflexivity. Qed.

(** ** Dates and the expiry filter *)

Example expiry_date_sample : expiry_date call_70000 = Ok 1731052800000000.
Proof. vm_compute. reflexivity. Qed.

(** Late in year 9999 a float has too few bits for the microseconds. *)
Example expiry_date_late :
  expiry_date {| instrument_name := "BTC-31DEC9999-70000-C";
                 expiration_timestamp := 253402300799999;
                 strike := PyInt 70000; option_type := "call" |}
  = Ok 253402300799998993.
Proof. vm_compute. reflexivity. Qed.

Example expiry_date_year_10000 : expiry_date call_year_10000 = Raise ValueError.
Proof. vm_compute. reflexivity. Qed.

Example strftime_Ymd_2023 : strftime_Ymd 1700000000000000 = "2023-11-14".
Proof. vm_compute. reflexivity. Qed.

Example strftime_Ymd_leap_day : strftime_Ymd 1709251199000000 = "2024-02-29".
Proof. vm_compute. reflexivity. Qed.

Example strftime_Ymd_epoch : strftime_Ymd 0 = "1970-01-01".
Proof. vm_compute. reflexivity. Qed.

Example filter_weekly_expiry_options_sample :
  filter_weekly_expiry_options sample_now
    [call_70000;
     {| instrument_name := "BTC-27DEC24-70000-C";
        expiration_timestamp := 1735286400000;
        strike := PyInt 70000; option_type := "call" |};
     expired_put;
     put_70000]
  = Ok [call_70000; put_70000].
Proof. vm_compute. reflexivity. Qed.

Lemma datetime_add_week now :
  now + timedelta_days 7 <= datetime_max ->
  datetime_add now (timedelta_days 7) = Ok (now + timedelta_days 7).
Proof.
  intros Hnow. unfold datetime_add.
  destruct (Z.leb_spec (now + timedelta_days 7) datetime_max); [reflexivity|lia].
Qed.

Lemma datetime_add_inv now delta later :
  datetime_add now delta = Ok later -> later = now + delta.
Proof.
  unfold datetime_add. destruct (now + delta <=? datetime_max); congruence.
Qed.

(** The loop of the filter, once an exception is there. *)
Lemma filter_loop_raise now later options e :
  fold_left (filter_weekly_expiry_options_iter now later) options (Raise e)
  = Raise e.
Proof. induction options as [|opt options IH]; [reflexivity | exact IH]. Qed.

Lemma filter_iter_converts now opt e acc :
  expiry_date opt = Ok e ->
  filter_weekly_expiry_options_iter now (now + timedelta_days 7) (Ok acc) opt
  = Ok (acc ++ filter (expires_within_week now) [opt]).
Proof.
  intros He. unfold filter_weekly_expiry_options_iter. rewrite He.
  rewrite filter_cons, filter_nil.
  assert (expires_within_week now opt <-> now <= e <= now + timedelta_days 7)
    as Hweek by (unfold expires_within_week; rewrite He; reflexivity).
  destruct (Z.leb_spec now e), (Z.leb_spec e (now + timedelta_days 7)); simpl;
    case_decide as Hd; rewrite ?app_nil_r; try reflexivity;
    exfalso; rewrite Hweek in Hd; lia.
Qed.

(** The loop of the filter, started from any [weekly_options], when every
    timestamp converts. *)
Lemma filter_loop_ok now options :
  Forall converts options ->
  forall acc,
    fold_left (filter_weekly_expiry_options_iter now (now + timedelta_days 7))
              options (Ok acc)
    = Ok (acc ++ filter (expires_within_week now) options).
Proof.
  induction 1 as [|opt options [e He] _ IH]; intros acc; cbn [fold_left].
  - rewrite filter_nil, app_nil_r. reflexivity.
  - rewrite (filter_iter_converts now opt e acc He), IH.
    rewrite <- app_assoc, <- filter_app. reflexivity.
Qed.

(** A loop that returns converted every timestamp. *)
Lemma filter_loop_inv now later options :
  forall acc w,
    fold_left (filter_weekly_expiry_options_iter now later) options (Ok acc)
    = Ok w ->
    Forall converts options.
Proof.
  induction options as [|opt options IH]; intros acc w Hw; [constructor|].
  cbn [fold_left] in Hw. unfold filter_weekly_expiry_options_iter at 2 in Hw.
  destruct (expiry_date opt) as [e|x] eqn:He.
  - constructor; [exists e; exact He|].
    destruct ((now <=? e) && (e <=? later)); eapply IH; exact Hw.
  - rewrite filter_loop_raise in Hw. discriminate.
Qed.

(** The loop stops at the first timestamp that does not convert. *)
Lemma filter_loop_stops now options opt more x :
  Forall converts options ->
  expiry_date opt = Raise x ->
  forall acc,
    fold_left (filter_weekly_expiry_options_iter now (now + timedelta_days 7))
              (options ++ opt :: more) (Ok acc)
    = Raise x.
Proof.
  intros Hconv Hopt acc. rewrite fold_left_app, filter_loop_ok by assumption.
  cbn [fold_left]. unfold filter_weekly_expiry_options_iter at 2. rewrite Hopt.
  apply filter_loop_raise.
Qed.

(** What the filter returns, when it returns. *)
Lemma filter_weekly_expiry_options_inv now options weekly_options :
  filter_weekly_expiry_options now options = Ok weekly_options ->
  now + timedelta_days 7 <= datetime_max /\
  Forall converts options /\
  weekly_options = filter (expires_within_week now) options.
Proof.
  unfold filter_weekly_expiry_options, datetime_add.
  destruct (Z.leb_spec (now + timedelta_days 7) datetime_max) as [Hnow|];
    [|discriminate].
  intros Hw. pose proof (filter_loop_inv _ _ _ _ _ Hw) as Hconv.
  rewrite filter_loop_ok in Hw by assumption. injection Hw as <-. auto.
Qed.

Lemma filter_weekly_expiry_options_ok now options :
  now + timedelta_days 7 <= datetime_max ->
  Forall converts options ->
  filter_weekly_expiry_options now options
  = Ok (filter (expires_within_week now) options).
Proof.
  intros Hnow Hconv. unfold filter_weekly_expiry_options.
  rewrite datetime_add_week by assumption. apply (filter_loop_ok now options Hconv []).
Qed.




(** ** The frame of [pd.DataFrame] *)

Lemma astype_sgn b c : sgn (astype b c) = sgn c.
Proof. destruct b, c as [[[| |]|]|]; reflexivity. Qed.

Lemma astype_notnull b c : notnull (astype b c) = notnull c.
Proof. destruct b, c as [[[| |]|[]]|]; reflexivity. Qed.

(** The frame has the rows of the data, one for one, up to dtype. *)
Lemma pd_DataFrame_Forall2 data :
  Forall2 same_up_to_dtype data (pd_DataFrame data).
Proof.
  unfold pd_DataFrame. apply Forall2_fmap_r, Forall_Forall2_diag, Forall_forall.
  intros r _. unfold same_up_to_dtype. simpl.
  rewrite !astype_sgn, !astype_notnull.
  repeat split; try reflexivity.
  destruct (float64_column _), (Strike_Price r) as [[| |]|]; reflexivity.
Qed.

Lemma pd_DataFrame_length data : length (pd_DataFrame data) = length data.
Proof. unfold pd_DataFrame. apply length_fmap. Qed.

Lemma pd_DataFrame_nil data : pd_DataFrame data = [] <-> data = [].
Proof.
  rewrite <- !length_zero_iff_nil, pd_DataFrame_length. reflexivity.
Qed.

(** Rows that agree up to dtype get the same label. *)
Lemma same_up_to_dtype_label r r' :
  same_up_to_dtype r r' ->
  identify_writers_with_iv r' = identify_writers_with_iv r.
Proof.
  intros (_ & _ & Ht & _ & [Ho _] & [Hi _] & [Hp _]).
  rewrite !identify_writers_with_iv_signs, Ht, Ho, Hi, Hp. reflexivity.
Qed.

(** ** The loop of [create_options_df] *)

Lemma create_options_df_iter_spec net opt data tr :
  create_options_df_iter net opt data tr =
  match expiry_date opt with
  | Raise e => (Raise e, tr)
  | Ok _ =>
      match summary_raises (summary_of net opt) with
      | Some e => (Raise e, tr ++ [summary_request opt])
      | None =>
          (Ok (data ++ option_list (row_of opt <$> usable_result (summary_of net opt))),
           tr ++ summary_events net opt)
      end
  end.
Proof.
  unfold create_options_df_iter, get_book_summary, summary_events, summary_of,
    row_of, expiry_string, expiry_date.
  unfold lift. unfold_M.
  destruct (int_truediv (expiration_timestamp opt) 1000) as [t|e]; [|reflexivity].
  destruct (utcfromtimestamp t) as [d|e]; [|reflexivity].
  destruct (get_book_summary_by_instrument net (instrument_name opt))
    as [|text|v|summary]; simpl.
  - reflexivity.
  - rewrite app_nil_r, <- app_assoc. reflexivity.
  - rewrite app_nil_r.
    destruct (truthy v); [|reflexivity].
    destruct v as [|b|n|s|items]; cbn [contains_result]; try reflexivity.
    + destruct (substring_of "result" s); reflexivity.
    + destruct (existsb _ items); reflexivity.
  - destruct (summary !! "result") as [summary_result|] eqn:Hres.
    + assert (size summary <> 0%nat) as Hsize.
      { intros H0. apply map_size_empty_iff in H0. subst summary.
        rewrite lookup_empty in Hres. discriminate. }
      apply Nat.eqb_neq in Hsize. rewrite Hsize. simpl.
      destruct summary_result; reflexivity.
    + rewrite app_nil_r. destruct (size summary =? 0)%nat; reflexivity.
Qed.

Lemma summary_events_unfold net opt :
  summary_events net opt =
  summary_request opt ::
  match summary_of net opt with
  | Text text => [decoding_error opt text]
  | _ => []
  end.
Proof. reflexivity. Qed.

Lemma create_options_df_loop net options :
  Forall (goes_through net) options ->
  forall data tr,
    for_in options (create_options_df_iter net) data tr =
    (Ok (data ++ rows_of net options),
     tr ++ concat (summary_events net <$> options)).
Proof.
  induction 1 as [|opt options [[e He] Hopt] _ IH]; intros data tr.
  - simpl. unfold ret. rewrite !app_nil_r. reflexivity.
  - cbn [for_in]. unfold bind. rewrite create_options_df_iter_spec, He, Hopt.
    unfold rows_of in *. cbn [omap list_omap fmap list_fmap concat].
    rewrite IH, <- !app_assoc.
    destruct (usable_result (summary_of net opt)); reflexivity.
Qed.

Lemma create_options_df_loop_inv net options :
  forall data tr data' tr',
    for_in options (create_options_df_iter net) data tr = (Ok data', tr') ->
    Forall (goes_through net) options.
Proof.
  induction options as [|opt options IH]; intros data tr data' tr' Hrun.
  - constructor.
  - cbn [for_in] in Hrun. unfold bind in Hrun.
    rewrite create_options_df_iter_spec in Hrun.
    destruct (expiry_date opt) as [e|x] eqn:He; [|discriminate].
    destruct (summary_raises (summary_of net opt)) eqn:Hsum; [discriminate|].
    constructor; [split; [exists e; exact He | exact Hsum] | eapply IH; exact Hrun].
Qed.

(** What [create_options_df] returns when every instrument goes through and
    one at least has a usable summary. *)
Lemma create_options_df_spec net options :
  Forall (goes_through net) options ->
  rows_of net options <> [] ->
  run (create_options_df net options) =
  (Ok ((fun row => (row, identify_writers_with_iv row)) <$>
       pd_DataFrame (rows_of net options)),
   concat (summary_events net <$> options)).
Proof.
  intros Hnet Hrows. unfold run, create_options_df, bind.
  rewrite create_options_df_loop by assumption. simpl.
  destruct (pd_DataFrame (rows_of net options)) eqn:Hdf; [|reflexivity].
  apply (proj1 (pd_DataFrame_nil _)) in Hdf. destruct (Hrows Hdf).
Qed.

Lemma create_options_df_inv net options df tr :
  run (create_options_df net options) = (Ok df, tr) ->
  Forall (goes_through net) options /\
  rows_of net options <> [] /\
  df = (fun row => (row, identify_writers_with_iv row)) <$>
       pd_DataFrame (rows_of net options) /\
  tr = concat (summary_events net <$> options).
Proof.
  unfold run, create_options_df, bind. intros Hrun.
  destruct (for_in options (create_options_df_iter net) [] []) as [[data|e] tr0]
    eqn:Hloop; [|discriminate].
  pose proof (create_options_df_loop_inv _ _ _ _ _ _ Hloop) as Hnet.
  rewrite create_options_df_loop in Hloop by assumption.
  simpl in Hloop. injection Hloop as <- <-.
  split; [assumption|].
  destruct (pd_DataFrame (rows_of net options)) eqn:Hdf; simpl in Hrun;
    [discriminate|].
  unfold ret in Hrun. injection Hrun as <- <-.
  split; [|split; reflexivity].
  intros Hnil. apply (proj2 (pd_DataFrame_nil _)) in Hnil. congruence.
Qed.

(** The rows gathered are those of the instruments with a usable summary,
    one for one and in order. *)
Lemma rows_of_Forall2 net options :
  Forall2 (fun opt row =>
             exists summary_result,
               usable_result (summary_of net opt) = Some summary_result /\
               row = row_of opt summary_result)
    (filter (fun opt => is_Some (usable_result (summary_of net opt))) options)
    (rows_of net options).
Proof.
  induction options as [|opt options IH]; [constructor|].
  rewrite filter_cons. unfold rows_of in *. simpl.
  destruct (usable_result (summary_of net opt)) as [summary_result|] eqn:Hres;
    case_decide as Hsome; simpl.
  - constructor; eauto.
  - destruct Hsome. eauto.
  - destruct Hsome as [? ?]. discriminate.
  - exact IH.
Qed.

Lemma rows_of_elem net options opt summary_result :
  opt ∈ options ->
  usable_result (summary_of net opt) = Some summary_result ->
  row_of opt summary_result ∈ rows_of net options.
Proof.
  intros Hin Hres. unfold rows_of. apply list_elem_of_omap.
  exists opt. split; [assumption|]. rewrite Hres. reflexivity.
Qed.

Lemma rows_of_inv net options row :
  row ∈ rows_of net options ->
  exists opt summary_result,
    opt ∈ options /\
    usable_result (summary_of net opt) = Some summary_result /\
    row = row_of opt summary_result.
Proof.
  unfold rows_of. rewrite list_elem_of_omap. intros (opt & Hin & Hrow).
  destruct (usable_result (summary_of net opt)) as [summary_result|] eqn:Hres;
    [|discriminate].
  simpl in Hrow. injection Hrow as <-. eauto.
Qed.

(** The table, row by row: each row is, up to dtype, the row of an
    instrument with a usable summary, with the label of that row. *)
Lemma create_options_df_Forall2 net options df tr :
  run (create_options_df net options) = (Ok df, tr) ->
  Forall2 (fun (opt : instrument) (r : Row * string) =>
             exists summary_result,
               usable_result (summary_of net opt) = Some summary_result /\
               same_up_to_dtype (row_of opt summary_result) (fst r) /\
               snd r = identify_writers_with_iv (fst r) /\
               snd r = identify_writers_with_iv (row_of opt summary_result))
    (filter (fun opt => is_Some (usable_result (summary_of net opt))) options)
    df.
Proof.
  intros Hrun. apply create_options_df_inv in Hrun as (_ & _ & -> & _).
  apply Forall2_fmap_r.
  eapply Forall2_trans;
    [|apply rows_of_Forall2|apply pd_DataFrame_Forall2].
  intros opt row r (summary_result & Hres & ->) Hsame. simpl.
  exists summary_result. split; [exact Hres|]. split; [exact Hsame|].
  split; [reflexivity|]. apply same_up_to_dtype_label, Hsame.
Qed.

(** A row typed "Put" gets a put label or 'Neutral'. *)
Lemma identify_writers_with_iv_put (r : Row) :
  Option_Type r = "Put" ->
  identify_writers_with_iv r ∈
    ["Put Writers (IV Falling)"; "Put Buyers (IV Rising)"; "Neutral"].
Proof.
  intros Ht. rewrite identify_writers_with_iv_signs, Ht. unfold rule_table.
  repeat case_decide; rewrite !elem_of_cons; auto;
    exfalso; intuition discriminate.
Qed.

Lemma pd_DataFrame_elem data r :
  r ∈ data -> exists r', r' ∈ pd_DataFrame data /\ same_up_to_dtype r r'.
Proof.
  intros Hr. apply list_elem_of_lookup in Hr as [i Hi].
  destruct (Forall2_lookup_l _ _ _ _ _ (pd_DataFrame_Forall2 data) Hi)
    as (r' & Hi' & Hsame).
  exists r'. split; [|exact Hsame]. apply list_elem_of_lookup. eauto.
Qed.

Lemma pd_DataFrame_elem_inv data r' :
  r' ∈ pd_DataFrame data -> exists r, r ∈ data /\ same_up_to_dtype r r'.
Proof.
  intros Hr. apply list_elem_of_lookup in Hr as [i Hi].
  destruct (Forall2_lookup_r _ _ _ _ _ (pd_DataFrame_Forall2 data) Hi)
    as (r & Hi' & Hsame).
  exists r. split; [|exact Hsame]. apply list_elem_of_lookup. eauto.
Qed.

(** What [create_options_df] comes to when every instrument goes through and
    none has a usable summary. *)
Lemma create_options_df_empty net options :
  Forall (goes_through net) options ->
  rows_of net options = [] ->
  run (create_options_df net options) =
  (Raise ValueError, concat (summary_events net <$> options)).
Proof.
  intros Hnet Hrows. unfold run, create_options_df, bind.
  rewrite create_options_df_loop by assumption. simpl. rewrite Hrows. reflexivity.
Qed.

(** ** The table *)

(** C7 (as the code has it): a summary that does not decode as JSON is
    reported with [st.error], its instrument is skipped and the loop goes on.
    When every instrument goes through (its timestamp converts, its request
    does not raise and its summary is read without a [TypeError]), every
    instrument is asked for and the frame is built from the rows of exactly
    the instruments with a usable summary, in order: the table of these rows
    is returned when there is one at least, and [ValueError] is raised on the
    empty frame when there is none. Of three instruments whose timestamps
    convert, of which one has an undecodable summary and the two others a
    usable one, the table has exactly 2 rows and the page shows the error of
    the failed one. *)
Theorem create_options_df_skips_undecodable :
  (forall net options,
     Forall (goes_through net) options ->
     (rows_of net options <> [] ->
      run (create_options_df net options) =
      (Ok ((fun row => (row, identify_writers_with_iv row)) <$>
           pd_DataFrame (rows_of net options)),
       concat (summary_events net <$> options))) /\
     (rows_of net options = [] ->
      run (create_options_df net options) =
      (Raise ValueError, concat (summary_events net <$> options)))) /\
  (forall net (a b c failed : instrument) (text : string) (i : nat),
     Forall converts [a; b; c] ->
     [a; b; c] !! i = Some failed ->
     summary_of net failed = Text text ->
     (forall j opt, j <> i -> [a; b; c] !! j = Some opt ->
        is_Some (usable_result (summary_of net opt))) ->
     exists df tr,
       run (create_options_df net [a; b; c]) = (Ok df, tr) /\
       length df = 2%nat /\
       decoding_error failed text ∈ tr).
Proof.
  split.
  { intros net options Hnet. split;
      [apply create_options_df_spec | apply create_options_df_empty]; assumption. }
  intros net a b c failed text i Hconv Hi Hfailed Hothers.
  assert (forall j opt, [a; b; c] !! j = Some opt ->
            summary_raises (summary_of net opt) = None) as Hnet.
  { intros j opt Hj. destruct (decide (j = i)) as [->|Hne].
    - rewrite Hi in Hj. injection Hj as <-. rewrite Hfailed. reflexivity.
    - destruct (Hothers j opt Hne Hj) as [r Hr].
      destruct (summary_of net opt); try discriminate. reflexivity. }
  assert (Forall (goes_through net) [a; b; c]) as Hall.
  { rewrite Forall_lookup in Hconv. apply Forall_lookup. intros j opt Hj.
    split; [exact (Hconv j opt Hj) | exact (Hnet j opt Hj)]. }
  assert (usable_result (summary_of net failed) = None) as Hnone
    by (rewrite Hfailed; reflexivity).
  assert (length (rows_of net [a; b; c]) = 2%nat /\
          decoding_error failed text ∈ concat (summary_events net <$> [a; b; c]))
    as [Hlen Herr].
  { unfold rows_of. simpl. unfold summary_events.
    destruct i as [|[|[|i]]]; simpl in Hi; [| | |discriminate];
      injection Hi as ->.
    - destruct (Hothers 1%nat b) as [rb Hb]; [lia|reflexivity|].
      destruct (Hothers 2%nat c) as [rc Hc]; [lia|reflexivity|].
      rewrite Hnone, Hb, Hc, Hfailed. simpl. split; [reflexivity|].
      repeat (rewrite elem_of_cons || rewrite elem_of_app); auto 10.
    - destruct (Hothers 0%nat a) as [ra Ha]; [lia|reflexivity|].
      destruct (Hothers 2%nat c) as [rc Hc]; [lia|reflexivity|].
      rewrite Hnone, Ha, Hc, Hfailed. simpl. split; [reflexivity|].
      repeat (rewrite elem_of_cons || rewrite elem_of_app); auto 10.
    - destruct (Hothers 0%nat a) as [ra Ha]; [lia|reflexivity|].
      destruct (Hothers 1%nat b) as [rb Hb]; [lia|reflexivity|].
      rewrite Hnone, Ha, Hb, Hfailed. simpl. split; [reflexivity|].
      repeat (rewrite elem_of_cons || rewrite elem_of_app); auto 10. }
  eexists _, _. split; [|split].
  - apply create_options_df_spec; [exact Hall|].
    intros Hnil. rewrite Hnil in Hlen. discriminate.
  - rewrite length_fmap, pd_DataFrame_length. exact Hlen.
  - exact Herr.
Qed.

Lemma create_options_df_skips_undecodable_witness :
  exists df tr,
    run (create_options_df net_undecodable sample_listing) = (Ok df, tr) /\
    length df = 2%nat /\
    decoding_error put_70000 "<html>502 Bad Gateway</html>" ∈ tr.
Proof.
  apply (proj2 create_options_df_skips_undecodable net_undecodable
           call_70000 put_70000 call_72000 put_70000
           "<html>502 Bad Gateway</html>" 1%nat).
  - repeat (apply Forall_cons_2; [eexists; vm_compute; reflexivity|]).
    apply Forall_nil_2.
  - reflexivity.
  - reflexivity.
  - intros j opt Hj Hlookup.
    destruct j as [|[|[|j]]]; simpl in Hlookup; try discriminate;
      try (exfalso; apply Hj; reflexivity);
      injection Hlookup as <-; exists [sample_summary]; reflexivity.
Defined.

(** C7 as stated fails for a failure in transport: the exception raised by
    [requests.get] is not caught, the table is not built and the instrument
    after the failed one is never asked for. *)
Lemma create_options_df_transport_failure :
  run (create_options_df net_down sample_listing) =
  (Raise RequestException,
   [summary_request call_70000; summary_request put_70000]).
Proof. vm_compute. reflexivity. Qed.

(** C9: every row of the table comes from an instrument with a usable
    summary, in order; when the option type of that instrument is not the
    string "call", the row is typed "Put" and its label is a put label or
    'Neutral'. *)
Theorem create_options_df_not_call_is_put net options df tr :
  run (create_options_df net options) = (Ok df, tr) ->
  Forall2
    (fun (opt : instrument) (r : Row * string) =>
       Instrument (fst r) = instrument_name opt /\
       (option_type opt <> "call" ->
        Option_Type (fst r) = "Put" /\
        snd r ∈ ["Put Writers (IV Falling)"; "Put Buyers (IV Rising)"; "Neutral"]))
    (filter (fun opt => is_Some (usable_result (summary_of net opt))) options)
    df.
Proof.
  intros Hrun. eapply Forall2_impl; [apply (create_options_df_Forall2 _ _ _ _ Hrun)|].
  intros opt r (summary_result & _ & (Hname & _ & Htype & _) & _ & Hlabel).
  split; [exact Hname|]. intros Hne.
  assert (Option_Type (row_of opt summary_result) = "Put") as Hput.
  { simpl. rewrite bool_decide_eq_false_2 by assumption. reflexivity. }
  split; [congruence|]. rewrite Hlabel.
  apply identify_writers_with_iv_put. exact Hput.
Qed.

Lemma create_options_df_not_call_is_put_witness :
  exists df tr,
    run (create_options_df net_ok [call_70000; odd_74000]) = (Ok df, tr) /\
    Forall2
      (fun (opt : instrument) (r : Row * string) =>
         Instrument (fst r) = instrument_name opt /\
         (option_type opt <> "call" ->
          Option_Type (fst r) = "Put" /\
          snd r ∈ ["Put Writers (IV Falling)"; "Put Buyers (IV Rising)"; "Neutral"]))
      (filter (fun opt => is_Some (usable_result (summary_of net_ok opt)))
              [call_70000; odd_74000])
      df.
Proof.
  eexists _, _. split.
  - apply create_options_df_spec; [sample_goes_through|].
    vm_compute. discriminate.
  - eapply (create_options_df_not_call_is_put net_ok).
    apply create_options_df_spec; [sample_goes_through|].
    vm_compute. discriminate.
Defined.

(** C10: an instrument whose summary decodes and has an empty 'result' list
    is not skipped: when every instrument goes through (its timestamp
    converts, its request does not raise, its summary is read without a
    [TypeError]), the table has its row, with open interest, IV change and
    price change all absent (what [pd.notnull] rejects: None, or NaN in a
    float column), labelled 'Neutral'. An instrument whose summary does not
    decode, or decodes without 'result', has no row. *)
Theorem create_options_df_empty_result :
  (forall net options opt summary,
     Forall (goes_through net) options ->
     opt ∈ options ->
     summary_of net opt = Json summary ->
     summary !! "result" = Some [] ->
     exists df tr,
       run (create_options_df net options) = (Ok df, tr) /\
       exists r : Row * string,
         r ∈ df /\
         Instrument (fst r) = instrument_name opt /\
         Expiry (fst r) = expiry_string opt /\
         Option_Type (fst r) =
           (if bool_decide (option_type opt = "call") then "Call" else "Put") /\
         notnull (Open_Interest (fst r)) = false /\
         notnull (IV_Change (fst r)) = false /\
         notnull (Price_Change (fst r)) = false /\
         snd r = "Neutral") /\
  (forall net options opt df tr,
     run (create_options_df net options) = (Ok df, tr) ->
     (exists text, summary_of net opt = Text text) \/
     (exists summary, summary_of net opt = Json summary /\
                      summary !! "result" = None) ->
     forall r, r ∈ df -> Instrument (fst r) <> instrument_name opt).
Proof.
  split.
  - intros net options opt summary Hnet Hin Hsum Hres.
    assert (usable_result (summary_of net opt) = Some []) as Huse
      by (rewrite Hsum; exact Hres).
    pose proof (rows_of_elem net options opt [] Hin Huse) as Hrow.
    eexists _, _. split.
    + apply create_options_df_spec; [exact Hnet|].
      intros Hnil. rewrite Hnil in Hrow. inversion Hrow.
    + apply pd_DataFrame_elem in Hrow as (r' & Hr' & Hsame).
      exists (r', identify_writers_with_iv r'). split.
      { apply list_elem_of_fmap. exists r'. split; [reflexivity | exact Hr']. }
      pose proof (same_up_to_dtype_label _ _ Hsame) as Hlabel.
      assert (identify_writers_with_iv (row_of opt []) = "Neutral") as Hneutral.
      { unfold identify_writers_with_iv, row_of. simpl.
        rewrite !lookup_empty. simpl. repeat case_bool_decide; reflexivity. }
      destruct Hsame as (Hname & Hexp & Htype & _ & [_ Ho] & [_ Hi] & [_ Hp]).
      simpl in Hname, Hexp, Htype, Ho, Hi, Hp.
      rewrite !lookup_empty in Ho, Hi, Hp. simpl in Ho, Hi, Hp.
      repeat split; try assumption. simpl. congruence.
  - intros net options opt df tr Hrun Hbad r Hr Hname.
    apply create_options_df_inv in Hrun as (_ & _ & -> & _).
    apply list_elem_of_fmap in Hr as (r' & -> & Hr').
    apply pd_DataFrame_elem_inv in Hr' as (row & Hrow & (Hn & _)).
    apply rows_of_inv in Hrow as (opt' & summary_result & _ & Huse & ->).
    simpl in Hname, Hn. rewrite Hn in Hname.
    unfold summary_of in *. rewrite Hname in Huse.
    destruct Hbad as [[text Htext]|(summary & Hsum & Hres)].
    + rewrite Htext in Huse. discriminate.
    + rewrite Hsum in Huse. simpl in Huse. congruence.
Qed.

Lemma create_options_df_empty_result_witness :
  exists df tr,
    run (create_options_df net_empty_result sample_listing) = (Ok df, tr) /\
    exists r : Row * string,
      r ∈ df /\
      Instrument (fst r) = "BTC-8NOV24-70000-P" /\
      Expiry (fst r) = expiry_string put_70000 /\
      Option_Type (fst r) = "Put" /\
      notnull (Open_Interest (fst r)) = false /\
      notnull (IV_Change (fst r)) = false /\
      notnull (Price_Change (fst r)) = false /\
      snd r = "Neutral".
Proof.
  apply (proj1 create_options_df_empty_result net_empty_result sample_listing
           put_70000 {[ "result" := [] ]}).
  - unfold sample_listing. sample_goes_through.
  - unfold sample_listing. rewrite !elem_of_cons. auto.
  - reflexivity.
  - reflexivity.
Defined.

(** In that table the absent open interest of the put is NaN, not None: the
    column is a float column. *)
Example create_options_df_empty_result_frame :
  (fun r : Row * string => (Instrument (fst r), Open_Interest (fst r), snd r)) <$>
  match fst (run (create_options_df net_empty_result sample_listing)) with
  | Ok df => df
  | Raise _ => []
  end
  = [ ("BTC-8NOV24-70000-C", Some (PyFloat (S754_finite false 25 (-1))), "Neutral");
      ("BTC-8NOV24-70000-P", Some (PyFloat S754_nan), "Neutral");
      ("BTC-8NOV24-72000-C", Some (PyFloat (S754_finite false 25 (-1))), "Neutral") ].
Proof. vm_compute. reflexivity. Qed.

(** ** The dashboard *)

(** The listing adds its events to the page, whatever the page holds. *)
Lemma get_all_btc_options_trace net tr :
  get_all_btc_options net tr =
  (fst (run (get_all_btc_options net)), tr ++ snd (run (get_all_btc_options net))).
Proof.
  listing_cases net; rewrite <- ?app_assoc; reflexivity.
Qed.

(** What the listing shows: its request and at most an error. *)
Lemma get_all_btc_options_events net :
  Forall (fun ev => ~ shows_data ev /\ ~ is_warning ev /\
                    forall opt, ev <> summary_request opt)
         (snd (run (get_all_btc_options net))).
Proof.
  listing_cases net;
    repeat constructor; simpl; try tauto; intros; discriminate.
Qed.

(** C8 (as the code has it): when the listing is empty the script stops on
    the error 'Failed to fetch BTC options from Deribit.', not on a warning:
    the page holds the title, what the listing showed and that error; no
    summary is asked for and no table, chart or warning is shown, whatever
    the clock says. The warning 'No weekly expiring options found.' is shown
    when the listing is not empty and the filter returns the empty list. *)
Theorem dashboard_no_data :
  (forall net now,
     fst (run (get_all_btc_options net)) = Ok [] ->
     let page :=
       st_title "Bitcoin Weekly Options Dashboard (Deribit)" ::
       snd (run (get_all_btc_options net)) ++
       [st_error (Msg "Failed to fetch BTC options from Deribit.")] in
     run (dashboard net now) = (Ok tt, page) /\
     Forall (fun ev => ~ shows_data ev /\ ~ is_warning ev /\
                       forall opt, ev <> summary_request opt) page) /\
  (forall net now btc_options,
     fst (run (get_all_btc_options net)) = Ok btc_options ->
     btc_options <> [] ->
     filter_weekly_expiry_options now btc_options = Ok [] ->
     run (dashboard net now) =
     (Ok tt,
      st_title "Bitcoin Weekly Options Dashboard (Deribit)" ::
      snd (run (get_all_btc_options net)) ++
      [st_warning "No weekly expiring options found."])).
Proof.
  split.
  - intros net now Hempty page. split.
    + unfold run, dashboard, bind, emit at 1. simpl.
      rewrite get_all_btc_options_trace, Hempty. reflexivity.
    + unfold page. constructor; [|apply Forall_app; split].
      * simpl. split; [tauto|]. split; [tauto|]. intros; discriminate.
      * apply get_all_btc_options_events.
      * repeat constructor; simpl; try tauto. intros; discriminate.
  - intros net now btc_options Hlist Hne Hnone.
    unfold run, dashboard, bind, emit at 1. simpl.
    rewrite get_all_btc_options_trace, Hlist.
    destruct btc_options as [|opt rest]; [congruence|].
    change (negb (length (opt :: rest) =? 0)%nat) with true. cbv iota.
    unfold lift. rewrite Hnone. reflexivity.
Qed.

Lemma dashboard_no_data_witness :
  run (dashboard net_empty sample_now) =
  (Ok tt,
   [st_title "Bitcoin Weekly Options Dashboard (Deribit)";
    requests_get "https://www.deribit.com/api/v2/public/get_instruments"
      [("currency", "BTC"); ("kind", "option"); ("expired", "false")];
    st_error (Msg "Failed to fetch BTC options from Deribit.")]).
Proof.
  apply (proj1 dashboard_no_data net_empty sample_now). reflexivity.
Defined.

(** C8 as stated fails: on an empty listing the page ends with an error and
    shows no warning. *)
Lemma dashboard_empty_listing_is_error :
  fst (run (get_all_btc_options net_empty)) = Ok [] /\
  last (snd (run (dashboard net_empty sample_now))) =
    Some (st_error (Msg "Failed to fetch BTC options from Deribit.")) /\
  Forall (fun ev => ~ is_warning ev) (snd (run (dashboard net_empty sample_now))).
Proof.
  split; [reflexivity|]. split; [reflexivity|].
  repeat constructor; simpl; tauto.
Qed.

(** The warning page, on a listing whose instruments have all expired. *)
Example dashboard_warning :
  run (dashboard
         {| get_instruments := Json {[ "result" := [expired_put] ]};
            get_book_summary_by_instrument := fun _ => Raises |}
         sample_now) =
  (Ok tt,
   [st_title "Bitcoin Weekly Options Dashboard (Deribit)";
    requests_get "https://www.deribit.com/api/v2/public/get_instruments"
      [("currency", "BTC"); ("kind", "option"); ("expired", "false")];
    st_warning "No weekly expiring options found."]).
Proof. vm_compute. reflexivity. Qed.

(** * Further properties *)

(** ** The expiry filter *)

(** Either every timestamp of a list converts, or there is a first one that
    does not. *)
Lemma first_unconverted (options : list instrument) :
  Forall converts options \/
  exists before opt after x,
    options = before ++ opt :: after /\
    Forall converts before /\
    expiry_date opt = Raise x.
Proof.
  induction options as [|o options [IH|(before & opt & after & x & -> & Hb & Hopt)]].
  - left. constructor.
  - destruct (expiry_date o) as [e|x] eqn:He.
    + left. constructor; [exists e; exact He | assumption].
    + right. exists [], o, options, x. repeat split; [constructor | assumption].
  - right. destruct (expiry_date o) as [e|x'] eqn:He.
    + exists (o :: before), opt, after, x.
      repeat split; [constructor; [exists e; exact He | assumption] | assumption].
    + exists [], o, (before ++ opt :: after), x'.
      repeat split; [constructor | assumption].
Qed.

(** The loop of the filter from any [weekly_options], by the loop from the
    empty list. *)
Lemma filter_loop_from now options acc :
  fold_left (filter_weekly_expiry_options_iter now (now + timedelta_days 7))
            options (Ok acc)
  = match fold_left (filter_weekly_expiry_options_iter now (now + timedelta_days 7))
                    options (Ok []) with
    | Ok w => Ok (acc ++ w)
    | Raise e => Raise e
    end.
Proof.
  destruct (first_unconverted options)
    as [Hconv|(before & opt & after & x & -> & Hconv & Hopt)].
  - rewrite !filter_loop_ok by assumption. reflexivity.
  - rewrite !(filter_loop_stops now before opt after x) by assumption.
    reflexivity.
Qed.

(** X1: the filter works instrument by instrument: the filter of a
    concatenation is the concatenation of the filters, and raises when one
    of them does; filtering again at the same instant what the filter
    returned changes nothing more, and no instrument is added. *)
Theorem filter_weekly_expiry_options_compose (now : datetime)
    (options more : list instrument) :
  filter_weekly_expiry_options now (options ++ more) =
    match filter_weekly_expiry_options now options,
          filter_weekly_expiry_options now more with
    | Ok w, Ok w' => Ok (w ++ w')
    | Ok _, Raise e => Raise e
    | Raise e, _ => Raise e
    end /\
  (forall w, filter_weekly_expiry_options now options = Ok w ->
     filter_weekly_expiry_options now w = Ok w /\
     (length w <= length options)%nat).
Proof.
  split.
  - unfold filter_weekly_expiry_options.
    destruct (datetime_add now (timedelta_days 7)) as [later|e] eqn:Hadd;
      [|reflexivity].
    apply datetime_add_inv in Hadd as ->. rewrite fold_left_app.
    destruct (fold_left _ options (Ok [])) as [w|e]; [|apply filter_loop_raise].
    rewrite filter_loop_from.
    destruct (fold_left _ more (Ok [])); reflexivity.
  - intros w Hw.
    apply filter_weekly_expiry_options_inv in Hw as (Hnow & Hconv & ->).
    split; [|apply length_filter].
    rewrite filter_weekly_expiry_options_ok.
    + f_equal. apply list_filter_filter_l. tauto.
    + exact Hnow.
    + rewrite Forall_forall in *. intros opt Hopt.
      apply list_elem_of_filter in Hopt as [_ Hopt]. auto.
Qed.

Lemma filter_weekly_expiry_options_compose_witness :
  filter_weekly_expiry_options sample_now [call_70000] = Ok [call_70000] /\
  (length [call_70000] <= length [expired_put; call_70000])%nat.
Proof.
  apply (proj2 (filter_weekly_expiry_options_compose sample_now
                  [expired_put; call_70000] [])).
  vm_compute. reflexivity.
Defined.

(** ** The listing *)

(** X2: the listing makes exactly one request, for the BTC options that have
    not expired. When that request raises, so does the listing, and no error
    is shown. A body that decodes to something else than an object makes the
    listing raise [TypeError], without an error shown, when it cannot be
    searched for 'result' (null, a bool, a number) or holds it (a str, a
    list); otherwise it is shown in one error and the empty list is returned.
    When the listing returns, it has shown no error exactly when the reply is
    an object with a 'result', which it returns as it is; otherwise it has
    shown one error and returns the empty list. *)
Theorem get_all_btc_options_outcome (net : network) :
  let r := run (get_all_btc_options net) in
  omap request_of (snd r) = [listing_request] /\
  (get_instruments net = Raises ->
   fst r = Raise RequestException /\ omap error_of (snd r) = []) /\
  (forall data, get_instruments net = Other data ->
     match contains_result data with
     | Ok false =>
         fst r = Ok [] /\
         omap error_of (snd r) = [Error_in_response (NotDict data)]
     | _ => fst r = Raise TypeError /\ omap error_of (snd r) = []
     end) /\
  (forall btc_options, fst r = Ok btc_options ->
     (omap error_of (snd r) = [] <->
      exists data, get_instruments net = Json data /\
                   data !! "result" = Some btc_options) /\
     (omap error_of (snd r) <> [] ->
      btc_options = [] /\ length (omap error_of (snd r)) = 1%nat)).
Proof.
  listing_cases net;
    (split; [reflexivity|]);
    (split; [intros; try discriminate; split; reflexivity|]);
    (split;
     [intros data' Hdata; try discriminate; injection Hdata as <-;
      match goal with
      | H : contains_result _ = _ |- _ => rewrite H
      end;
      split; reflexivity|]);
    intros btc_options Hok; try discriminate; injection Hok as <-.
  - split; [|intros _; split; reflexivity].
    split; [discriminate|]. intros (data' & Hdata & _). discriminate.
  - split; [|intros _; split; reflexivity].
    split; [discriminate|]. intros (data' & Hdata & _). discriminate.
  - split; [|intros Herr; exfalso; apply Herr; reflexivity].
    split; [|reflexivity]. intros _. eexists. split; [reflexivity|assumption].
  - split; [|intros _; split; reflexivity].
    split; [discriminate|]. intros (data' & Hdata & Hres'). congruence.
Qed.

Lemma get_all_btc_options_outcome_witness :
  omap error_of (snd (run (get_all_btc_options net_ok))) = [].
Proof.
  destruct (get_all_btc_options_outcome net_ok) as (_ & _ & _ & Hreturns).
  destruct (Hreturns sample_listing) as [[_ Hquiet] _]; [reflexivity|].
  apply Hquiet. exists {[ "result" := sample_listing ]}.
  split; reflexivity.
Defined.

(** Bodies that are not objects: [null] cannot be searched for 'result', an
    empty list is shown in an error, a str that holds 'result' cannot be
    indexed by it. *)
Example get_all_btc_options_null :
  run (get_all_btc_options
         {| get_instruments := Other PyNone;
            get_book_summary_by_instrument := fun _ => Raises |}) =
  (Raise TypeError,
   [requests_get "https://www.deribit.com/api/v2/public/get_instruments"
      [("currency", "BTC"); ("kind", "option"); ("expired", "false")]]).
Proof. vm_compute. reflexivity. Qed.

Example get_all_btc_options_empty_list :
  run (get_all_btc_options
         {| get_instruments := Other (PyList []);
            get_book_summary_by_instrument := fun _ => Raises |}) =
  (Ok [],
   [requests_get "https://www.deribit.com/api/v2/public/get_instruments"
      [("currency", "BTC"); ("kind", "option"); ("expired", "false")];
    st_error (Error_in_response (NotDict (PyList [])))]).
Proof. vm_compute. reflexivity. Qed.

Example get_all_btc_options_str :
  fst (run (get_all_btc_options
              {| get_instruments := Other (PyStr "no result");
                 get_book_summary_by_instrument := fun _ => Raises |})) =
  Raise TypeError.
Proof. vm_compute. reflexivity. Qed.

Example contains_result_str :
  contains_result (PyStr "resul") = Ok false /\
  contains_result (PyList [JNumber (PyInt 1); JString "result"]) = Ok true.
Proof. vm_compute. split; reflexivity. Qed.

(** ** The table: requests, errors, exceptions *)

Lemma rows_of_nil net options :
  rows_of net options = [] <->
  Forall (fun opt => usable_result (summary_of net opt) = None) options.
Proof.
  unfold rows_of. induction options as [|opt options IH]; simpl.
  - split; [constructor | reflexivity].
  - destruct (usable_result (summary_of net opt)) eqn:Hres; simpl.
    + split; [discriminate|]. intros H. inversion H; congruence.
    + rewrite IH. split; [constructor; assumption|].
      intros H. inversion H; assumption.
Qed.

Lemma rows_of_length net options :
  (length (rows_of net options) <= length options)%nat.
Proof.
  unfold rows_of. induction options as [|opt options IH]; simpl; [lia|].
  destruct (usable_result (summary_of net opt)); simpl.
  - apply (proj1 (Nat.succ_le_mono _ _)), IH.
  - apply Nat.le_le_succ_r, IH.
Qed.

(** The page of [create_options_df] when every instrument goes through,
    whether or not a table comes out. *)
Lemma create_options_df_events net options :
  Forall (goes_through net) options ->
  snd (run (create_options_df net options)) =
  concat (summary_events net <$> options).
Proof.
  intros Hnet. unfold create_options_df. unfold_M.
  rewrite create_options_df_loop by assumption. simpl.
  destruct (pd_DataFrame (rows_of net options)); reflexivity.
Qed.

Lemma summary_events_requests net options :
  omap request_of (concat (summary_events net <$> options)) =
  (fun opt => (base_url +:+ "/get_book_summary_by_instrument",
               [("instrument_name", instrument_name opt)])) <$> options.
Proof.
  induction options as [|opt options IH]; [reflexivity|].
  change (concat (summary_events net <$> opt :: options))
    with (summary_events net opt ++ concat (summary_events net <$> options)).
  rewrite omap_app, IH. unfold summary_events.
  destruct (summary_of net opt); reflexivity.
Qed.

Lemma summary_events_errors net options :
  omap error_of (concat (summary_events net <$> options)) =
  omap (decoding_message net) options.
Proof.
  induction options as [|opt options IH]; [reflexivity|].
  change (concat (summary_events net <$> opt :: options))
    with (summary_events net opt ++ concat (summary_events net <$> options)).
  rewrite omap_app, IH. simpl. unfold summary_events, decoding_message.
  destruct (summary_of net opt); reflexivity.
Qed.

Lemma summary_events_shape net options :
  Forall (fun ev => is_Some (request_of ev) \/ is_Some (error_of ev))
         (concat (summary_events net <$> options)).
Proof.
  apply Forall_concat, Forall_fmap, Forall_forall. intros opt _.
  unfold compose, summary_events. destruct (summary_of net opt); simpl;
    repeat (apply Forall_cons_2;
            [simpl; (left; eexists; reflexivity) || (right; eexists; reflexivity)|]);
    apply Forall_nil_2.
Qed.

(** X3: when every instrument goes through (its timestamp converts, its
    request does not raise, its summary is read without a [TypeError]),
    [create_options_df] asks for one summary per instrument, in the order of
    the list, and shows one error per summary that does not decode, in that
    order, naming the instrument; a summary that decodes, to an object with
    or without 'result' or to another value, is passed over without a
    message. It shows nothing else. *)
Theorem create_options_df_requests_and_errors (net : network)
    (options : list instrument) :
  Forall (goes_through net) options ->
  let page := snd (run (create_options_df net options)) in
  omap request_of page =
    (fun opt => (base_url +:+ "/get_book_summary_by_instrument",
                 [("instrument_name", instrument_name opt)])) <$> options /\
  omap error_of page = omap (decoding_message net) options /\
  (forall opt, opt ∈ options ->
     (exists summary, summary_of net opt = Json summary) \/
     (exists summary, summary_of net opt = Other summary) ->
     decoding_message net opt = None) /\
  Forall (fun ev => is_Some (request_of ev) \/ is_Some (error_of ev)) page.
Proof.
  intros Hnet page. unfold page. rewrite create_options_df_events by assumption.
  split; [apply summary_events_requests|].
  split; [apply summary_events_errors|].
  split; [|apply summary_events_shape].
  intros opt _ [[summary Hsum]|[summary Hsum]]; unfold decoding_message;
    rewrite Hsum; reflexivity.
Qed.

Lemma create_options_df_requests_and_errors_witness :
  omap error_of (snd (run (create_options_df net_no_result sample_listing))) =
  [Msg "Error decoding JSON response for BTC-8NOV24-70000-P: <html>502 Bad Gateway</html>"].
Proof.
  apply (create_options_df_requests_and_errors net_no_result sample_listing).
  unfold sample_listing. sample_goes_through.
Defined.

(** X4: when every instrument goes through, [create_options_df] raises
    [ValueError] exactly when no instrument of the list has a usable summary
    (the list may be empty): the frame has no row then, and the column of
    labels cannot be assigned. Otherwise it returns a table. *)
Theorem create_options_df_no_usable_summary (net : network)
    (options : list instrument) :
  Forall (goes_through net) options ->
  (fst (run (create_options_df net options)) = Raise ValueError <->
   Forall (fun opt => usable_result (summary_of net opt) = None) options) /\
  (Exists (fun opt => is_Some (usable_result (summary_of net opt))) options ->
   exists df, fst (run (create_options_df net options)) = Ok df).
Proof.
  intros Hnet. rewrite <- rows_of_nil.
  destruct (rows_of net options) as [|row rows] eqn:Hrows.
  - rewrite create_options_df_empty by assumption. split; [tauto|].
    intros Hex. apply Exists_exists in Hex as (opt & Hin & [r Hr]).
    pose proof (rows_of_elem net options opt r Hin Hr) as Hrow.
    rewrite Hrows in Hrow. inversion Hrow.
  - rewrite create_options_df_spec by (assumption || congruence).
    rewrite Hrows. split; [split; discriminate | eauto].
Qed.

Lemma create_options_df_no_usable_summary_witness :
  fst (run (create_options_df net_no_result sample_listing)) = Raise ValueError.
Proof.
  apply (create_options_df_no_usable_summary net_no_result sample_listing).
  - unfold sample_listing. sample_goes_through.
  - unfold sample_listing. do 3 (constructor; [reflexivity|]). constructor.
Defined.

(** The loop, when the summary of [opt] is the first thing to raise. *)
Lemma create_options_df_loop_raises net before opt after x :
  Forall (goes_through net) before ->
  converts opt ->
  summary_raises (summary_of net opt) = Some x ->
  forall data tr,
    for_in (before ++ opt :: after) (create_options_df_iter net) data tr
    = (Raise x,
       tr ++ concat (summary_events net <$> before) ++ [summary_request opt]).
Proof.
  intros Hbefore [e He] Hopt.
  induction Hbefore as [|o before [[eo Heo] Ho] _ IH]; intros data tr;
    cbn [app for_in]; unfold bind; rewrite create_options_df_iter_spec.
  - rewrite He, Hopt. reflexivity.
  - cbn [fmap list_fmap concat]. rewrite Heo, Ho, IH, <- !app_assoc.
    reflexivity.
Qed.

(** The loop, when the timestamp of [opt] is the first thing to raise. *)
Lemma create_options_df_loop_unconverted net before opt after x :
  Forall (goes_through net) before ->
  expiry_date opt = Raise x ->
  forall data tr,
    for_in (before ++ opt :: after) (create_options_df_iter net) data tr
    = (Raise x, tr ++ concat (summary_events net <$> before)).
Proof.
  intros Hbefore Hopt.
  induction Hbefore as [|o before [[eo Heo] Ho] _ IH]; intros data tr;
    cbn [app for_in]; unfold bind; rewrite create_options_df_iter_spec.
  - rewrite Hopt. simpl. rewrite app_nil_r. reflexivity.
  - cbn [fmap list_fmap concat]. rewrite Heo, Ho, IH, <- !app_assoc.
    reflexivity.
Qed.

(** X5: when the instruments before [opt] go through, what raises at [opt]
    ends [create_options_df] with that exception, wherever [opt] stands in
    the list: the rows gathered before it are lost and the instruments after
    it are not asked for. A timestamp that does not convert raises before the
    summary of [opt] is asked for; a request that raises
    ([RequestException]), or a summary that cannot be read ([TypeError]),
    raises after the request. *)
Theorem create_options_df_aborts (net : network)
    (before after : list instrument) (opt : instrument) :
  Forall (goes_through net) before ->
  (forall x, converts opt -> summary_raises (summary_of net opt) = Some x ->
   run (create_options_df net (before ++ opt :: after)) =
   (Raise x,
    concat (summary_events net <$> before) ++ [summary_request opt])) /\
  (converts opt -> summary_of net opt = Raises ->
   fst (run (create_options_df net (before ++ opt :: after))) =
   Raise RequestException) /\
  (forall x, expiry_date opt = Raise x ->
   run (create_options_df net (before ++ opt :: after)) =
   (Raise x, concat (summary_events net <$> before))).
Proof.
  intros Hbefore.
  assert (forall x, converts opt -> summary_raises (summary_of net opt) = Some x ->
          run (create_options_df net (before ++ opt :: after)) =
          (Raise x,
           concat (summary_events net <$> before) ++ [summary_request opt]))
    as Hraises.
  { intros x Hconv Hopt. unfold run, create_options_df, bind.
    rewrite (create_options_df_loop_raises net before opt after x)
      by assumption. reflexivity. }
  split; [exact Hraises|]. split.
  - intros Hconv Hopt. rewrite (Hraises RequestException Hconv); [reflexivity|].
    rewrite Hopt. reflexivity.
  - intros x Hopt. unfold run, create_options_df, bind.
    rewrite (create_options_df_loop_unconverted net before opt after x)
      by assumption. reflexivity.
Qed.

Lemma create_options_df_aborts_witness :
  run (create_options_df net_down sample_listing) =
  (Raise RequestException,
   concat (summary_events net_down <$> [call_70000]) ++ [summary_request put_70000]).
Proof.
  apply (create_options_df_aborts net_down [call_70000] [call_72000] put_70000).
  - sample_goes_through.
  - eexists. vm_compute. reflexivity.
  - reflexivity.
Defined.

(** A summary that is the JSON value [true] cannot be searched for 'result'. *)
Example create_options_df_true :
  run (create_options_df
         {| get_instruments := Raises;
            get_book_summary_by_instrument := fun _ => Other (PyBool true) |}
         [call_70000; call_72000]) =
  (Raise TypeError, [summary_request call_70000]).
Proof. vm_compute. reflexivity. Qed.

(** The summary of an instrument that expires in year 10000 is never asked
    for. *)
Example create_options_df_year_10000 :
  run (create_options_df net_ok [call_70000; call_year_10000; call_72000]) =
  (Raise ValueError, [summary_request call_70000]).
Proof. vm_compute. reflexivity. Qed.

(** ** The table: rows and invariants *)

(** A row typed "Call" gets a call label or 'Neutral'. *)
Lemma identify_writers_with_iv_call (r : Row) :
  Option_Type r = "Call" ->
  identify_writers_with_iv r ∈
    ["Call Writers (IV Falling)"; "Call Buyers (IV Rising)"; "Neutral"].
Proof.
  intros Ht. rewrite identify_writers_with_iv_signs, Ht. unfold rule_table.
  repeat case_decide; rewrite !elem_of_cons; auto;
    exfalso; intuition discriminate.
Qed.

Lemma rows_of_names_sublist net options :
  (Instrument <$> rows_of net options) `sublist_of` (instrument_name <$> options).
Proof.
  unfold rows_of. induction options as [|opt options IH]; simpl; [constructor|].
  destruct (usable_result (summary_of net opt)); simpl.
  - apply sublist_skip, IH.
  - apply sublist_cons, IH.
Qed.

Lemma pd_DataFrame_astype data :
  Forall2 (fun r r' =>
             same_up_to_dtype r r' /\
             exists oi iv price : bool,
               Open_Interest r' = astype oi (Open_Interest r) /\
               IV_Change r' = astype iv (IV_Change r) /\
               Price_Change r' = astype price (Price_Change r))
          data (pd_DataFrame data).
Proof.
  unfold pd_DataFrame. apply Forall2_fmap_r, Forall_Forall2_diag, Forall_forall.
  intros r _. split.
  - unfold same_up_to_dtype. simpl. rewrite !astype_sgn, !astype_notnull.
    repeat split; try reflexivity.
    destruct (float64_column _), (Strike_Price r) as [[| |]|]; reflexivity.
  - simpl. do 3 eexists. repeat split; reflexivity.
Qed.

(** X6: each row of the table is built from one instrument with a usable
    summary, one for one and in order: the name, the expiry date and the type
    come from the instrument; 'Open Interest', 'IV Change' and 'Price Change'
    are the members 'open_interest', 'iv' and 'last' of the first element of
    'result' alone (None when 'result' is empty, when the member is missing
    or when it is null), as they are or in the float64 of their column, where
    None is NaN and an int is a float; 'Writer Type' is the label of the
    row. *)
Theorem create_options_df_rows (net : network) (options : list instrument)
    (df : DataFrame) (tr : list event) :
  run (create_options_df net options) = (Ok df, tr) ->
  Forall2
    (fun (opt : instrument) (r : Row * string) =>
       exists (summary_result : list book_summary) (oi iv price : bool),
         usable_result (summary_of net opt) = Some summary_result /\
         Instrument (fst r) = instrument_name opt /\
         Expiry (fst r) = expiry_string opt /\
         Option_Type (fst r) =
           (if bool_decide (option_type opt = "call") then "Call" else "Put") /\
         Open_Interest (fst r) =
           astype oi (first ← head summary_result; first !! "open_interest" ≫= id) /\
         IV_Change (fst r) =
           astype iv (first ← head summary_result; first !! "iv" ≫= id) /\
         Price_Change (fst r) =
           astype price (first ← head summary_result; first !! "last" ≫= id) /\
         snd r = identify_writers_with_iv (fst r))
    (filter (fun opt => is_Some (usable_result (summary_of net opt))) options)
    df.
Proof.
  intros Hrun. apply create_options_df_inv in Hrun as (_ & _ & -> & _).
  apply Forall2_fmap_r.
  eapply Forall2_trans; [|apply rows_of_Forall2|apply pd_DataFrame_astype].
  intros opt row r' (summary_result & Hres & ->)
    [(Hname & Hexp & Htype & _) (oi & iv & price & Ho & Hi & Hp)].
  simpl. exists summary_result, oi, iv, price.
  split; [exact Hres|]. split; [exact Hname|]. split; [exact Hexp|].
  split; [exact Htype|].
  rewrite Ho, Hi, Hp. unfold row_of.
  destruct summary_result as [|first rest]; simpl.
  - rewrite !lookup_empty. auto.
  - destruct (first !! "open_interest") as [[?|]|], (first !! "iv") as [[?|]|],
      (first !! "last") as [[?|]|]; auto.
Qed.

Lemma create_options_df_rows_witness :
  exists df tr,
    run (create_options_df net_empty_result sample_listing) = (Ok df, tr) /\
    length df = 3%nat.
Proof.
  assert (run (create_options_df net_empty_result sample_listing) =
          (Ok ((fun row => (row, identify_writers_with_iv row)) <$>
               pd_DataFrame (rows_of net_empty_result sample_listing)),
           concat (summary_events net_empty_result <$> sample_listing))) as Hrun.
  { apply create_options_df_spec.
    - unfold sample_listing. sample_goes_through.
    - vm_compute. discriminate. }
  eexists _, _. split; [exact Hrun|].
  pose proof (create_options_df_rows _ _ _ _ Hrun) as Hrows.
  apply Forall2_length in Hrows. rewrite <- Hrows. reflexivity.
Defined.

(** X7: a table that [create_options_df] returns is never empty and has at
    most one row per instrument; its instrument names are names of the list,
    in the order of the list; every row is typed "Call" or "Put", a "Call"
    row has a call label or 'Neutral' and a "Put" row a put label or
    'Neutral'. *)
Theorem create_options_df_table_invariant (net : network)
    (options : list instrument) (df : DataFrame) (tr : list event) :
  run (create_options_df net options) = (Ok df, tr) ->
  df <> [] /\
  (length df <= length options)%nat /\
  ((fun r => Instrument (fst r)) <$> df) `sublist_of` (instrument_name <$> options) /\
  Forall
    (fun r : Row * string =>
       Option_Type (fst r) = "Call" /\
       snd r ∈ ["Call Writers (IV Falling)"; "Call Buyers (IV Rising)"; "Neutral"]
       \/
       Option_Type (fst r) = "Put" /\
       snd r ∈ ["Put Writers (IV Falling)"; "Put Buyers (IV Rising)"; "Neutral"])
    df.
Proof.
  intros Hrun.
  pose proof (create_options_df_Forall2 _ _ _ _ Hrun) as Hrows.
  apply create_options_df_inv in Hrun as (_ & Hne & -> & _).
  split.
  { intros Hnil. apply fmap_nil_inv in Hnil.
    apply (proj1 (pd_DataFrame_nil _)) in Hnil. contradiction. }
  split; [|split].
  - rewrite length_fmap, pd_DataFrame_length. apply rows_of_length.
  - rewrite <- list_fmap_compose.
    assert ((fun r : Row * string => Instrument (fst r)) ∘
            (fun row => (row, identify_writers_with_iv row)) <$>
            pd_DataFrame (rows_of net options)
            = Instrument <$> rows_of net options) as ->.
    { unfold pd_DataFrame. rewrite <- list_fmap_compose. reflexivity. }
    apply rows_of_names_sublist.
  - eapply Forall2_Forall_r; [exact Hrows|]. apply Forall_forall.
    intros opt _ r (summary_result & _ & (_ & _ & Htype & _) & _ & Hlabel).
    assert (Option_Type (row_of opt summary_result) = "Call" \/
            Option_Type (row_of opt summary_result) = "Put") as [Ht|Ht]
      by (simpl; case_bool_decide; auto).
    + left. split; [congruence|]. rewrite Hlabel.
      apply identify_writers_with_iv_call, Ht.
    + right. split; [congruence|]. rewrite Hlabel.
      apply identify_writers_with_iv_put, Ht.
Qed.

Lemma create_options_df_table_invariant_witness :
  exists df tr,
    run (create_options_df net_undecodable sample_listing) = (Ok df, tr) /\
    df <> [].
Proof.
  assert (run (create_options_df net_undecodable sample_listing) =
          (Ok ((fun row => (row, identify_writers_with_iv row)) <$>
               pd_DataFrame (rows_of net_undecodable sample_listing)),
           concat (summary_events net_undecodable <$> sample_listing))) as Hrun.
  { apply create_options_df_spec.
    - unfold sample_listing. sample_goes_through.
    - vm_compute. discriminate. }
  eexists _, _. split; [exact Hrun|].
  apply (create_options_df_table_invariant _ _ _ _ Hrun).
Defined.

(** ** The charts *)

Lemma value_counts_lookup (col : list string) (v : string) :
  value_counts col !! v =
  if decide (length (filter (fun x => x = v) col) = 0%nat) then None
  else Some (length (filter (fun x => x = v) col)).
Proof.
  induction col as [|x col IH]; [reflexivity|].
  change (value_counts (x :: col))
    with (<[x := S (default 0%nat (value_counts col !! x))]> (value_counts col)).
  rewrite lookup_insert, filter_cons.
  destruct (decide (x = v)) as [->|Hne]; simpl.
  - rewrite IH. repeat case_decide; simpl; try congruence; try lia.
  - exact IH.
Qed.

(** X8: [value_counts] gives every value that occurs in a column the number
    of its occurrences, and no entry to a value that does not occur. *)
Theorem value_counts_spec (col : list string) (v : string) :
  (value_counts col !! v = None <-> v ∉ col) /\
  (forall n : nat,
     value_counts col !! v = Some n <->
     v ∈ col /\ n = length (filter (fun x => x = v) col)).
Proof.
  rewrite value_counts_lookup.
  assert (length (filter (fun x => x = v) col) = 0%nat <-> v ∉ col) as Hzero.
  { rewrite length_zero_iff_nil. split.
    - intros Hnil Hin.
      exact (filter_nil_not_elem_of (fun x => x = v) col v Hnil eq_refl Hin).
    - intros Hnotin. induction col as [|x col IH]; [reflexivity|].
      rewrite filter_cons. rewrite not_elem_of_cons in Hnotin.
      destruct Hnotin as [Hne Hnotin].
      rewrite decide_False by congruence. apply IH, Hnotin. }
  case_decide as Hlen; split.
  - split; [intros _; apply Hzero, Hlen | reflexivity].
  - intros n. split; [discriminate|]. intros [Hin _].
    apply Hzero in Hlen. contradiction.
  - split; [discriminate|]. intros Hnotin. apply Hzero in Hnotin. contradiction.
  - intros n. split.
    + intros Hn. injection Hn as <-. split; [|reflexivity].
      destruct (decide (v ∈ col)) as [Hin|Hnotin]; [exact Hin|].
      apply Hzero in Hnotin. contradiction.
    + intros [_ ->]. reflexivity.
Qed.

Lemma call_put_count (col : list string) :
  Forall (fun v => v = "Call" \/ v = "Put") col ->
  (length (filter (fun x => x = "Call") col) +
   length (filter (fun x => x = "Put") col) = length col)%nat.
Proof.
  induction 1 as [|v col [->| ->] _ IH]; [reflexivity| |];
    rewrite !filter_cons; simpl; lia.
Qed.

(** X9: in the 'Call vs Put' chart of a table that [create_options_df]
    returned, only "Call" and "Put" have a slice, and the two counts add up
    to the number of rows of the table. *)
Theorem call_put_distribution (net : network) (options : list instrument)
    (df : DataFrame) (tr : list event) :
  run (create_options_df net options) = (Ok df, tr) ->
  let counts := value_counts ((fun r => Option_Type (fst r)) <$> df) in
  (forall v, is_Some (counts !! v) -> v = "Call" \/ v = "Put") /\
  (default 0 (counts !! "Call") + default 0 (counts !! "Put") = length df)%nat.
Proof.
  intros Hrun counts.
  assert (Forall (fun v => v = "Call" \/ v = "Put")
                 ((fun r => Option_Type (fst r)) <$> df)) as Htypes.
  { apply Forall_fmap.
    eapply Forall2_Forall_r; [exact (create_options_df_Forall2 _ _ _ _ Hrun)|].
    apply Forall_forall.
    intros opt _ r (summary_result & _ & (_ & _ & Htype & _) & _).
    unfold compose. rewrite Htype. simpl. case_bool_decide; auto. }
  split.
  - intros v [n Hn]. unfold counts in Hn.
    rewrite value_counts_lookup in Hn. case_decide as Hlen; [discriminate|].
    rewrite Forall_forall in Htypes. apply Htypes.
    destruct (filter (fun x => x = v) ((fun r => Option_Type (fst r)) <$> df))
      as [|x l] eqn:Hfilter; [contradiction|].
    assert (x ∈ x :: l) as Hx by apply list_elem_of_here.
    rewrite <- Hfilter in Hx. apply list_elem_of_filter in Hx as [-> Hx].
    exact Hx.
  - unfold counts. rewrite !value_counts_lookup.
    rewrite <- (length_fmap (fun r : Row * string => Option_Type (fst r)) df).
    rewrite <- (call_put_count _ Htypes).
    repeat case_decide; simpl; lia.
Qed.

Lemma call_put_distribution_witness :
  exists df tr,
    run (create_options_df net_ok sample_listing) = (Ok df, tr) /\
    (default 0 (value_counts ((fun r => Option_Type (fst r)) <$> df) !! "Call") +
     default 0 (value_counts ((fun r => Option_Type (fst r)) <$> df) !! "Put")
     = length df)%nat.
Proof.
  assert (run (create_options_df net_ok sample_listing) =
          (Ok ((fun row => (row, identify_writers_with_iv row)) <$>
               pd_DataFrame (rows_of net_ok sample_listing)),
           concat (summary_events net_ok <$> sample_listing))) as Hrun.
  { apply create_options_df_spec.
    - unfold sample_listing. sample_goes_through.
    - vm_compute. discriminate. }
  eexists _, _. split; [exact Hrun|].
  apply (call_put_distribution _ _ _ _ Hrun).
Defined.

(** ** The dashboard, case by case *)

(** The loop and [create_options_df] add their events to the page, whatever
    the page holds. *)
Lemma create_options_df_loop_trace net options :
  forall data tr,
    for_in options (create_options_df_iter net) data tr =
    (fst (for_in options (create_options_df_iter net) data []),
     tr ++ snd (for_in options (create_options_df_iter net) data [])).
Proof.
  induction options as [|opt options IH]; intros data tr; cbn [for_in].
  - unfold ret. rewrite app_nil_r. reflexivity.
  - unfold bind. rewrite !create_options_df_iter_spec.
    destruct (expiry_date opt); [|simpl; rewrite app_nil_r; reflexivity].
    destruct (summary_raises (summary_of net opt)); simpl; [reflexivity|];
      match goal with
      | |- for_in _ _ ?d ?t = (fst (for_in _ _ _ ?t'), _) =>
          rewrite (IH d t), (IH d t')
      end; simpl; rewrite <- !app_assoc; reflexivity.
Qed.

Lemma create_options_df_trace net options tr :
  create_options_df net options tr =
  (fst (run (create_options_df net options)),
   tr ++ snd (run (create_options_df net options))).
Proof.
  unfold run, create_options_df, bind.
  rewrite create_options_df_loop_trace.
  destruct (for_in options (create_options_df_iter net) [] []) as [[data|e] evs];
    simpl; [destruct (pd_DataFrame data)|]; simpl; rewrite ?app_nil_r; reflexivity.
Qed.

(** The run of the dashboard, by what the listing, the filter and the table
    come to. *)
Lemma dashboard_run net now :
  run (dashboard net now) =
  let listing := run (get_all_btc_options net) in
  let page := st_title "Bitcoin Weekly Options Dashboard (Deribit)" :: snd listing in
  match fst listing with
  | Raise e => (Raise e, page)
  | Ok [] =>
      (Ok tt, page ++ [st_error (Msg "Failed to fetch BTC options from Deribit.")])
  | Ok btc_options =>
      match filter_weekly_expiry_options now btc_options with
      | Raise e => (Raise e, page)
      | Ok [] => (Ok tt, page ++ [st_warning "No weekly expiring options found."])
      | Ok weekly_options =>
          let table := run (create_options_df net weekly_options) in
          match fst table with
          | Raise e => (Raise e, page ++ snd table)
          | Ok options_df => (Ok tt, page ++ snd table ++ rendering options_df)
          end
      end
  end.
Proof.
  unfold run at 1. unfold dashboard, bind, emit at 1. simpl.
  rewrite get_all_btc_options_trace.
  destruct (fst (run (get_all_btc_options net))) as [[|opt btc_options]|e];
    [reflexivity| |reflexivity].
  change (negb (length (opt :: btc_options) =? 0)%nat) with true.
  cbv beta iota. unfold lift.
  destruct (filter_weekly_expiry_options now (opt :: btc_options))
    as [[|w weekly_options]|e]; [reflexivity| |reflexivity].
  change (0 <? length (w :: weekly_options))%nat with true.
  cbv beta iota. rewrite create_options_df_trace.
  destruct (fst (run (create_options_df net (w :: weekly_options))));
    [|reflexivity].
  unfold emit, rendering. simpl. rewrite <- !app_assoc. reflexivity.
Qed.

(** When [create_options_df] returns a table. *)
Lemma create_options_df_returns net options :
  (exists df, fst (run (create_options_df net options)) = Ok df) <->
  Forall (goes_through net) options /\
  Exists (fun opt => is_Some (usable_result (summary_of net opt))) options.
Proof.
  split.
  - intros [df Hdf].
    assert (run (create_options_df net options) =
            (Ok df, snd (run (create_options_df net options)))) as Hrun
      by (rewrite <- Hdf; apply surjective_pairing).
    apply create_options_df_inv in Hrun as (Hnet & Hrows & _).
    split; [exact Hnet|].
    rewrite rows_of_nil in Hrows.
    apply not_Forall_Exists in Hrows; [|intros x; apply _].
    eapply Exists_impl; [exact Hrows|]. intros x Hx. simpl in Hx.
    destruct (usable_result (summary_of net x)); [eauto | congruence].
  - intros [Hnet Hex]. apply Exists_exists in Hex as (opt & Hin & [r Hr]).
    pose proof (rows_of_elem net options opt r Hin Hr) as Hrow.
    rewrite create_options_df_spec; [simpl; eauto|exact Hnet|].
    intros Hnil. rewrite Hnil in Hrow. inversion Hrow.
Qed.

(** X10: when the listing returns, the filter returns instruments, every one
    of them goes through (its timestamp converts, its request does not raise,
    its summary is read without a [TypeError]) and one at least has a usable
    summary, the page is, in order:
    the title, what the listing showed, one summary request per retained
    instrument (with the error of each undecodable one), then the table, which
    is the frame of the rows of the retained instruments with a usable
    summary, the bar chart and the two pie charts under their headings. *)
Theorem dashboard_shows_table (net : network) (now : datetime)
    (btc_options weekly_options : list instrument) :
  fst (run (get_all_btc_options net)) = Ok btc_options ->
  filter_weekly_expiry_options now btc_options = Ok weekly_options ->
  Forall (goes_through net) weekly_options ->
  Exists (fun opt => is_Some (usable_result (summary_of net opt))) weekly_options ->
  let options_df :=
    (fun row => (row, identify_writers_with_iv row)) <$>
    pd_DataFrame (rows_of net weekly_options) in
  run (dashboard net now) =
  (Ok tt,
   st_title "Bitcoin Weekly Options Dashboard (Deribit)" ::
   snd (run (get_all_btc_options net)) ++
   concat (summary_events net <$> weekly_options) ++
   rendering options_df).
Proof.
  intros Hlist Hweekly Hnet Hex options_df.
  assert (rows_of net weekly_options <> []) as Hrows.
  { intros Hnil. apply rows_of_nil in Hnil. apply Exists_exists in Hex
      as (opt & Hin & [r Hr]). rewrite Forall_forall in Hnil.
    rewrite (Hnil opt Hin) in Hr. discriminate. }
  rewrite dashboard_run. cbv zeta. rewrite Hlist.
  destruct btc_options as [|opt btc_options].
  { apply filter_weekly_expiry_options_inv in Hweekly as (_ & _ & ->).
    inversion Hex. }
  rewrite Hweekly.
  rewrite (create_options_df_spec net weekly_options Hnet Hrows). simpl.
  destruct weekly_options as [|w ws]; [inversion Hex|].
  reflexivity.
Qed.

Lemma dashboard_shows_table_witness :
  omap table_of (snd (run (dashboard net_undecodable sample_now))) =
  [ (fun row => (row, identify_writers_with_iv row)) <$>
    pd_DataFrame (rows_of net_undecodable [call_70000; call_72000]) ].
Proof.
  rewrite (dashboard_shows_table net_undecodable sample_now sample_listing
             sample_listing).
  - vm_compute. reflexivity.
  - reflexivity.
  - vm_compute. reflexivity.
  - unfold sample_listing. sample_goes_through.
  - apply Exists_cons_hd. exists [sample_summary]. reflexivity.
Defined.

(** X11: on a listing that returns, the dashboard runs to its end exactly
    when the listing is empty, or the filter returns and either retains
    nothing or every retained instrument goes through (its timestamp
    converts, its request does not raise, its summary is read without a
    [TypeError]) and one at least has a usable summary. *)
Theorem dashboard_completes (net : network) (now : datetime)
    (btc_options : list instrument) :
  fst (run (get_all_btc_options net)) = Ok btc_options ->
  (fst (run (dashboard net now)) = Ok tt <->
   btc_options = [] \/
   exists weekly_options,
     filter_weekly_expiry_options now btc_options = Ok weekly_options /\
     (weekly_options = [] \/
      Forall (goes_through net) weekly_options /\
      Exists (fun opt => is_Some (usable_result (summary_of net opt)))
             weekly_options)).
Proof.
  intros Hlist. rewrite dashboard_run. cbv zeta. rewrite Hlist.
  destruct btc_options as [|opt btc_options]; [simpl; tauto|].
  destruct (filter_weekly_expiry_options now (opt :: btc_options))
    as [[|w weekly_options]|e].
  - simpl. split; [eauto|reflexivity].
  - pose proof (create_options_df_returns net (w :: weekly_options)) as Hret.
    destruct (fst (run (create_options_df net (w :: weekly_options)))) as [df|e];
      simpl fst.
    + split; [|reflexivity]. intros _. right. exists (w :: weekly_options).
      split; [reflexivity|]. right. apply Hret. eauto.
    + split; [discriminate|].
      intros [Hnil|(weekly & Hw & [Hnil|Hgo])]; [discriminate| |].
      * congruence.
      * injection Hw as <-. apply Hret in Hgo as [df Hdf]. discriminate.
  - simpl. split; [discriminate|].
    intros [Hnil|(weekly & Hw & _)]; discriminate.
Qed.

Lemma dashboard_completes_witness :
  fst (run (dashboard net_undecodable sample_now)) = Ok tt.
Proof.
  apply (dashboard_completes net_undecodable sample_now sample_listing).
  - reflexivity.
  - right. exists sample_listing. split; [vm_compute; reflexivity|].
    right. split; [unfold sample_listing; sample_goes_through|].
    apply Exists_cons_hd. exists [sample_summary]. reflexivity.
Defined.

(** ** What a page holds *)

Lemma omap_None {A B} (f : A -> option B) (l : list A) :
  Forall (fun x => f x = None) l -> omap f l = [].
Proof.
  induction 1 as [|x l Hx _ IH]; [reflexivity|]. simpl. rewrite Hx. exact IH.
Qed.

(** The summary requests show no table, chart or warning. *)
Lemma summary_events_silent net options :
  omap table_of (concat (summary_events net <$> options)) = [] /\
  omap chart_of (concat (summary_events net <$> options)) = [] /\
  omap warning_of (concat (summary_events net <$> options)) = [].
Proof.
  repeat split; apply omap_None;
    (eapply Forall_impl; [apply summary_events_shape|]);
    intros [] [[? H]|[? H]]; simpl in *; congruence.
Qed.

(** The listing shows no table, chart or warning, makes its one request, and
    shows no error when it returns a list that is not empty. *)
Lemma get_all_btc_options_silent net :
  omap table_of (snd (run (get_all_btc_options net))) = [] /\
  omap chart_of (snd (run (get_all_btc_options net))) = [] /\
  omap warning_of (snd (run (get_all_btc_options net))) = [] /\
  omap request_of (snd (run (get_all_btc_options net))) = [listing_request] /\
  (forall opt btc_options,
     fst (run (get_all_btc_options net)) = Ok (opt :: btc_options) ->
     omap error_of (snd (run (get_all_btc_options net))) = []).
Proof.
  listing_cases net; repeat split; intros; congruence.
Qed.

(** Either every instrument of a list goes through, or there is a first one
    that does not: its timestamp does not convert, or its summary raises. *)
Lemma first_stop net (options : list instrument) :
  Forall (goes_through net) options \/
  exists before opt after,
    options = before ++ opt :: after /\
    Forall (goes_through net) before /\
    ((exists x, expiry_date opt = Raise x) \/
     converts opt /\ exists x, summary_raises (summary_of net opt) = Some x).
Proof.
  assert (forall o, goes_through net o \/
            (exists x, expiry_date o = Raise x) \/
            converts o /\ exists x, summary_raises (summary_of net o) = Some x)
    as Hcases.
  { intros o. unfold goes_through, converts.
    destruct (expiry_date o) as [e|x]; [|eauto].
    destruct (summary_raises (summary_of net o)) as [x|]; eauto 10. }
  induction options as [|o options [IH|(before & opt & after & -> & Hb & Hopt)]].
  - left. constructor.
  - destruct (Hcases o) as [Ho|Ho].
    + left. constructor; assumption.
    + right. exists [], o, options.
      split; [reflexivity|]. split; [constructor | exact Ho].
  - right. destruct (Hcases o) as [Ho|Ho].
    + exists (o :: before), opt, after.
      split; [reflexivity|]. split; [constructor; assumption | exact Hopt].
    + exists [], o, (before ++ opt :: after).
      split; [reflexivity|]. split; [constructor | exact Ho].
Qed.

(** Every request of [create_options_df] is the summary request of an
    instrument of its list, whether it returns or raises. *)
Lemma create_options_df_requests_from net options rq :
  rq ∈ omap request_of (snd (run (create_options_df net options))) ->
  exists opt,
    opt ∈ options /\
    rq = (base_url +:+ "/get_book_summary_by_instrument",
          [("instrument_name", instrument_name opt)]).
Proof.
  destruct (first_stop net options)
    as [Hnet|(before & opt & after & -> & Hbefore & [[x Hopt]|[Hconv [x Hopt]]])].
  - rewrite create_options_df_events, summary_events_requests by assumption.
    intros Hrq. apply list_elem_of_fmap in Hrq as (opt & -> & Hin). eauto.
  - unfold run, create_options_df, bind.
    rewrite (create_options_df_loop_unconverted net before opt after x)
      by assumption.
    simpl. rewrite summary_events_requests, list_elem_of_fmap.
    intros (o & -> & Hin). exists o. split; [|reflexivity].
    apply elem_of_app. auto.
  - unfold run, create_options_df, bind.
    rewrite (create_options_df_loop_raises net before opt after x) by assumption.
    simpl. rewrite omap_app, summary_events_requests. simpl.
    rewrite elem_of_app, list_elem_of_fmap, list_elem_of_singleton.
    intros [(o & -> & Hin)| ->].
    + exists o. split; [|reflexivity]. apply elem_of_app. auto.
    + exists opt. split; [|reflexivity]. apply elem_of_app. right.
      apply list_elem_of_here.
Qed.

(** X12: a run of the dashboard that reaches its end shows one of three
    pages and never a mix of them: the error 'Failed to fetch BTC options
    from Deribit.' last, with no table, chart or warning; or the warning 'No
    weekly expiring options found.' last, with no table, chart or error; or
    one table, which is not empty, with three charts, no warning and not
    that error. *)
Theorem dashboard_one_outcome (net : network) (now : datetime)
    (page : list event) :
  run (dashboard net now) = (Ok tt, page) ->
  let failed := Msg "Failed to fetch BTC options from Deribit." in
  (last page = Some (st_error failed) /\
   omap table_of page = [] /\ omap chart_of page = [] /\
   omap warning_of page = [])
  \/
  (last page = Some (st_warning "No weekly expiring options found.") /\
   omap table_of page = [] /\ omap chart_of page = [] /\
   omap error_of page = [])
  \/
  (exists df,
     omap table_of page = [df] /\ df <> [] /\
     length (omap chart_of page) = 3%nat /\
     omap warning_of page = [] /\
     failed ∉ omap error_of page).
Proof.
  rewrite dashboard_run. cbv zeta.
  destruct (get_all_btc_options_silent net) as (Ltab & Lch & Lwarn & _ & Lerr).
  destruct (fst (run (get_all_btc_options net))) as [[|opt btc_options]|e]
    eqn:Hlist; [| |discriminate].
  - intros Hrun. injection Hrun as <-. left.
    change (?x :: ?l ++ ?y) with ([x] ++ l ++ y).
    rewrite !omap_app, Ltab, Lch, Lwarn.
    split; [rewrite app_assoc; apply last_snoc|]. repeat split; reflexivity.
  - specialize (Lerr opt btc_options eq_refl).
    destruct (filter_weekly_expiry_options now (opt :: btc_options))
      as [[|w weekly_options]|e]; [| |discriminate].
    + intros Hrun. injection Hrun as <-. right. left.
      change (?x :: ?l ++ ?y) with ([x] ++ l ++ y).
      rewrite !omap_app, Ltab, Lch, Lerr.
      split; [rewrite app_assoc; apply last_snoc|]. repeat split; reflexivity.
    + remember (w :: weekly_options) as weekly eqn:Hweekly.
      destruct (fst (run (create_options_df net weekly)))
        as [df|e] eqn:Htable; [|discriminate].
      assert (run (create_options_df net weekly) =
              (Ok df, snd (run (create_options_df net weekly)))) as Hrun
        by (rewrite <- Htable; apply surjective_pairing).
      apply create_options_df_inv in Hrun as (Hnet & Hrows & Hdf & Htr).
      rewrite Htr.
      destruct (summary_events_silent net weekly) as (Stab & Sch & Swarn).
      intros Hrun. injection Hrun as <-. right. right.
      exists df. change (?x :: ?l ++ ?y) with ([x] ++ l ++ y).
      rewrite !omap_app, Ltab, Lch, Lwarn, Lerr, Stab, Sch, Swarn.
      rewrite summary_events_errors.
      split; [reflexivity|]. split.
      { rewrite Hdf. intros Hnil. apply fmap_nil_inv in Hnil.
        apply (proj1 (pd_DataFrame_nil _)) in Hnil. destruct (Hrows Hnil). }
      split; [reflexivity|]. split; [reflexivity|].
      simpl. rewrite app_nil_r. intros Hin.
      apply list_elem_of_omap in Hin as (o & _ & Hmsg).
      unfold decoding_message in Hmsg.
      destruct (summary_of net o); discriminate.
Qed.

Lemma dashboard_one_outcome_witness :
  length (omap chart_of (snd (run (dashboard net_ok sample_now)))) = 3%nat /\
  omap warning_of (snd (run (dashboard net_ok sample_now))) = [].
Proof.
  destruct (dashboard_one_outcome net_ok sample_now
              (snd (run (dashboard net_ok sample_now))))
    as [(Hlast & _)|[(Hlast & _)|(df & _ & _ & Hcharts & Hwarn & _)]].
  - vm_compute. reflexivity.
  - vm_compute in Hlast. discriminate.
  - vm_compute in Hlast. discriminate.
  - split; assumption.
Defined.

(** X13: the dashboard asks for nothing but the listing and the summaries of
    listed instruments whose timestamp converts to an instant within the
    week, endpoints included: an instrument outside the week, or one whose
    timestamp does not convert, is never asked for, whether the run ends or
    raises. *)
Theorem dashboard_requests_within_week (net : network) (now : datetime)
    (rq : string * list (string * string)) :
  rq ∈ omap request_of (snd (run (dashboard net now))) ->
  rq = listing_request \/
  exists btc_options opt e,
    fst (run (get_all_btc_options net)) = Ok btc_options /\
    opt ∈ btc_options /\
    expiry_date opt = Ok e /\
    now <= e <= now + 604800000000 /\
    rq = (base_url +:+ "/get_book_summary_by_instrument",
          [("instrument_name", instrument_name opt)]).
Proof.
  rewrite dashboard_run. cbv zeta.
  destruct (get_all_btc_options_silent net) as (_ & _ & _ & Lreq & _).
  assert (forall tail : list event,
            rq ∈ omap request_of
                   (st_title "Bitcoin Weekly Options Dashboard (Deribit)" ::
                    snd (run (get_all_btc_options net)) ++ tail) ->
            rq = listing_request \/ rq ∈ omap request_of tail) as Hpage.
  { intros tail. change (?x :: ?l ++ ?y) with ([x] ++ l ++ y).
    rewrite !omap_app, Lreq. simpl. rewrite elem_of_cons. tauto. }
  assert (rq ∈ omap request_of
                 (st_title "Bitcoin Weekly Options Dashboard (Deribit)" ::
                  snd (run (get_all_btc_options net))) ->
          rq = listing_request) as Hpage0.
  { intros Hin. destruct (Hpage []) as [H|H];
      [rewrite app_nil_r; exact Hin | exact H | inversion H]. }
  destruct (fst (run (get_all_btc_options net))) as [[|opt btc_options]|e]
    eqn:Hlist; simpl snd.
  - intros Hin. apply Hpage in Hin as [H|H]; [auto | inversion H].
  - destruct (filter_weekly_expiry_options now (opt :: btc_options))
      as [[|w weekly_options]|x] eqn:Hweekly; simpl snd.
    + intros Hin. apply Hpage in Hin as [H|H]; [auto | inversion H].
    + apply filter_weekly_expiry_options_inv in Hweekly as (_ & _ & Hfilter).
      assert (rq ∈ omap request_of
                     (snd (run (create_options_df net (w :: weekly_options)))) ->
              exists btc_options0 o e,
                Ok (opt :: btc_options) = Ok btc_options0 /\
                o ∈ btc_options0 /\
                expiry_date o = Ok e /\
                now <= e <= now + 604800000000 /\
                rq = (base_url +:+ "/get_book_summary_by_instrument",
                      [("instrument_name", instrument_name o)])) as Htable.
      { intros Hin. apply create_options_df_requests_from in Hin
          as (o & Ho & ->).
        rewrite Hfilter in Ho. apply list_elem_of_filter in Ho as [Hweek Ho].
        unfold expires_within_week in Hweek.
        destruct (expiry_date o) as [e|] eqn:He; [|destruct Hweek].
        exists (opt :: btc_options), o, e. split; [reflexivity|].
        split; [exact Ho|]. split; [exact He|]. split; [|reflexivity].
        unfold timedelta_days in Hweek. lia. }
      destruct (fst (run (create_options_df net (w :: weekly_options))));
        simpl snd; intros Hin; apply Hpage in Hin as [H|H]; auto.
      rewrite omap_app in H. simpl in H. rewrite app_nil_r in H. auto.
    + intros Hin. left. apply Hpage0. exact Hin.
  - intros Hin. left. apply Hpage0. exact Hin.
Qed.

Lemma dashboard_requests_within_week_witness :
  ("https://www.deribit.com/api/v2/public/get_book_summary_by_instrument",
   [("instrument_name", "BTC-8NOV24-70000-C")]) = listing_request \/
  exists btc_options opt e,
    fst (run (get_all_btc_options net_ok)) = Ok btc_options /\
    opt ∈ btc_options /\
    expiry_date opt = Ok e /\
    sample_now <= e <= sample_now + 604800000000 /\
    ("https://www.deribit.com/api/v2/public/get_book_summary_by_instrument",
     [("instrument_name", "BTC-8NOV24-70000-C")])
    = (base_url +:+ "/get_book_summary_by_instrument",
       [("instrument_name", instrument_name opt)]).
Proof.
  apply (dashboard_requests_within_week net_ok sample_now).
  vm_compute. apply list_elem_of_further, list_elem_of_here.
Defined.
